(** * inferno.trainers.callbacks.logging.tensorboard

    A shallow embedding of [TensorboardLogger] (the callback that forwards
    trainer states to tensorboardX) together with the properties its
    specification states about it.

    Conventions of the embedding:
    - a Python call that may raise returns a [result];
    - a method that mutates [self] is a function from the logger to a
      [result] paired with the logger after the call (the logger a caller
      observes even when the call raised);
    - numpy arrays and torch tensors are a shape and the row-major list of
      their items; items are exact rationals ([Qc]), so the rounding and the
      range of machine floats are not part of the model of an array, and
      the properties of pixel values are those that involve no rounding;
    - the conversion of a Python [int] to a float is modelled with its
      rounding and its [OverflowError]. *)

From Stdlib Require Import ZArith QArith Qcanon List Ascii String Lia.
From stdpp Require Import base decidable option list numbers strings pretty gmap.

Set Warnings "-register-all".

Local Open Scope string_scope.
Local Open Scope list_scope.

(** ** Exceptions and results *)

Inductive exn : Set :=
| ValueError
| TypeError
| KeyError
| NotImplementedError
| AssertionError
| RuntimeError
| OverflowError.

Inductive result (A : Type) : Type :=
| Ok (a : A)
| Raise (e : exn).
Arguments Ok {A} a.
Arguments Raise {A} e.

#[global] Instance exn_eq_dec : EqDecision exn.
Proof. solve_decision. Defined.

#[global] Instance result_ret : MRet result := fun _ a => Ok a.
#[global] Instance result_bind : MBind result := fun _ _ f m =>
  match m with
  | Ok a => f a
  | Raise e => Raise e
  end.

(** Modelled from the spec: [inferno.utils.exceptions.assert_], which is not
    among the sources. The spec describes its two uses in [observe_state] as
    an invalid-argument failure raised immediately when the condition does
    not hold; the exception raised is the type the caller passes. *)
Definition assert_ (condition : bool) (exception_type : exn) : result unit :=
  if condition then Ok tt else Raise exception_type.

(** The errors the spec calls invalid-argument failures: the two exception
    types [observe_state] hands to [assert_]. *)
Definition is_invalid_argument (e : exn) : bool :=
  match e with
  | ValueError | TypeError => true
  | _ => false
  end.

(** ** Arrays, tensors and Python values *)

(** A numpy array: its shape and its items in row-major order. *)
Record ndarray : Type := mk_ndarray {
  shape : list nat;
  data : list Qc
}.

Inductive torch_dtype : Set := FloatTensor | LongTensor.

(** A torch tensor; [numpy t] is what [t.float().numpy()] returns. *)
Record Tensor : Type := mk_Tensor {
  dtype : torch_dtype;
  numpy : ndarray
}.

(** The Python values that reach the logger. *)
Inductive pyobj : Type :=
| PyNone
| PyInt (z : Z)
| PyFloat (x : Qc)
| PyStr (s : string)
| PyList (xs : list pyobj)
| PyTuple (xs : list pyobj)
| PyTensor (t : Tensor).

(** [hash(o)] succeeds: lists are unhashable, a tuple is hashable when its
    items are. *)
Fixpoint hashable (o : pyobj) : bool :=
  match o with
  | PyList _ => false
  | PyTuple xs =>
      (fix all (xs : list pyobj) : bool :=
         match xs with
         | [] => true
         | x :: xs' => hashable x && all xs'
         end) xs
  | _ => true
  end.

(** ** Conversion of an [int] to a [float] *)

(** The significant bits and the exponent bound of a Python float (a C
    double), as [sys.float_info] gives them. *)
Definition DBL_MANT_DIG : Z := 53.
Definition DBL_MAX_EXP : Z := 1024.

(** The magnitude [n] kept to [DBL_MANT_DIG] significant bits: the bits
    below them are dropped and the result is rounded to the nearest such
    number, to the one with an even last bit when two are equally near. *)
Definition round_half_even (n : Z) : Z :=
  let dropped := (Z.log2 n + 1 - DBL_MANT_DIG)%Z in
  if (dropped <=? 0)%Z then n
  else
    let q := Z.shiftr n dropped in
    let r := Z.land n (Z.ones dropped) in
    let half := Z.shiftl 1 (dropped - 1) in
    let q := if (half <? r)%Z || ((r =? half)%Z && Z.odd q)
             then (q + 1)%Z else q in
    Z.shiftl q dropped.

(** [float(z)] for an [int]: the nearest float, and [OverflowError] ("int too
    large to convert to float") when the rounded magnitude needs an exponent
    above [DBL_MAX_EXP]. *)
Definition float_of_int (z : Z) : result Qc :=
  let x := round_half_even (Z.abs z) in
  if (2 ^ DBL_MAX_EXP <=? x)%Z then Raise OverflowError
  else Ok (Qc_of_Z (Z.sgn z * x)).

(** ** The logger *)

(** An entry of [_config]: the value of one of the [send_*_at_*_indices]
    constructor arguments. *)
Inductive index_selection : Type :=
| SelStr (s : string)
| SelList (l : list Z)
| SelInt (z : Z)
| SelOther.

Record Config : Type := mk_Config {
  image_batch_indices : index_selection;
  image_channel_indices : index_selection;
  volume_z_indices : index_selection
}.

(** What the trainer exposes to the logger. *)
Record Trainer : Type := mk_Trainer {
  iteration_count : Z;
  epoch_count : Z
}.

(** A call received by the tensorboardX [SummaryWriter]. *)
Inductive write : Type :=
| add_scalar (tag : string) (scalar_value : Qc) (global_step : Z)
| add_image (tag : string) (img_tensor : ndarray) (global_step : Z).

Record TensorboardLogger : Type := mk_TensorboardLogger {
  trainer : Trainer;
  (* [None] until the [writer] property is first read; afterwards the calls
     the writer has received, oldest first. *)
  _writer : option (list write);
  _config : Config;
  _trainer_states_being_observed_while_training : gset string;
  _trainer_states_being_observed_while_validating : gset string;
  (* tag and shape of each tensor [log_object] warned about, oldest first *)
  warnings_issued : list (string * list nat)
}.

(** A method of the logger: the outcome and the logger after the call. *)
Definition Method (A : Type) : Type :=
  TensorboardLogger -> result A * TensorboardLogger.

#[global] Instance Method_ret : MRet Method := fun _ a self => (Ok a, self).
#[global] Instance Method_bind : MBind Method := fun _ _ f m self =>
  match m self with
  | (Ok a, self') => f a self'
  | (Raise e, self') => (Raise e, self')
  end.

Definition raise {A : Type} (e : exn) : Method A := fun self => (Raise e, self).
Definition lift {A : Type} (r : result A) : Method A := fun self => (r, self).
Definition read {A : Type} (f : TensorboardLogger -> A) : Method A :=
  fun self => (Ok (f self), self).
Definition update (f : TensorboardLogger -> TensorboardLogger) : Method unit :=
  fun self => (Ok tt, f self).

(** [__init__] with the default arguments, attached to [tr]. *)
Definition init (tr : Trainer) : TensorboardLogger :=
  {| trainer := tr;
     _writer := None;
     _config := {| image_batch_indices := SelStr "all";
                   image_channel_indices := SelStr "all";
                   volume_z_indices := SelStr "mid" |};
     _trainer_states_being_observed_while_training :=
       {[ "training_loss"; "training_error"; "training_prediction";
          "training_inputs"; "training_target"; "learning_rate" ]};
     _trainer_states_being_observed_while_validating :=
       {[ "validation_error_averaged"; "validation_loss_averaged" ]};
     warnings_issued := [] |}.

(** ** Observation registry *)

Definition set_training (f : gset string -> gset string)
    (self : TensorboardLogger) : TensorboardLogger :=
  {| trainer := trainer self;
     _writer := _writer self;
     _config := _config self;
     _trainer_states_being_observed_while_training :=
       f (_trainer_states_being_observed_while_training self);
     _trainer_states_being_observed_while_validating :=
       _trainer_states_being_observed_while_validating self;
     warnings_issued := warnings_issued self |}.

Definition set_validating (f : gset string -> gset string)
    (self : TensorboardLogger) : TensorboardLogger :=
  {| trainer := trainer self;
     _writer := _writer self;
     _config := _config self;
     _trainer_states_being_observed_while_training :=
       _trainer_states_being_observed_while_training self;
     _trainer_states_being_observed_while_validating :=
       f (_trainer_states_being_observed_while_validating self);
     warnings_issued := warnings_issued self |}.

(** [keyword_mapping.get(observe_while)]: [None] for a key the dict does not
    hold, [TypeError] for an unhashable one. *)
Definition keyword_mapping_get (observe_while : pyobj) : result (option string) :=
  if negb (hashable observe_while) then Raise TypeError
  else match observe_while with
       | PyStr s =>
           if String.eqb s "train" then Ok (Some "training")
           else if String.eqb s "training" then Ok (Some "training")
           else if String.eqb s "validation" then Ok (Some "validating")
           else if String.eqb s "validating" then Ok (Some "validating")
           else Ok None
       | _ => Ok None
       end.

Definition isinstance_str (o : pyobj) : bool :=
  match o with
  | PyStr _ => true
  | _ => false
  end.

(** [s.add(key)] for a key that passed [isinstance(key, str)]. *)
Definition set_add (key : pyobj) (s : gset string) : gset string :=
  match key with
  | PyStr k => {[ k ]} ∪ s
  | _ => s
  end.

Definition observe_state (key observe_while : pyobj) : Method unit :=
  observe_while ← lift (keyword_mapping_get observe_while);
  lift (assert_ (bool_decide (observe_while ≠ None)) ValueError);;
  lift (assert_ (isinstance_str key) TypeError);;
  if bool_decide (observe_while = Some "training") then
    update (set_training (set_add key))
  else if bool_decide (observe_while = Some "validating") then
    update (set_validating (set_add key))
  else
    raise NotImplementedError.

(** [s.remove(key)]: [TypeError] for an unhashable key, [KeyError] for a key
    that is not a member (a key that is not a string is never one). *)
Definition set_remove (key : pyobj) (s : gset string) : result (gset string) :=
  if negb (hashable key) then Raise TypeError
  else match key with
       | PyStr k => if bool_decide (k ∈ s) then Ok (s ∖ {[ k ]}) else Raise KeyError
       | _ => Raise KeyError
       end.

(** [observe_while == 'training'] and the like. *)
Definition py_eq_str (o : pyobj) (s : string) : bool :=
  match o with
  | PyStr s' => String.eqb s' s
  | _ => false
  end.

Definition unobserve_state (key observe_while : pyobj) : Method unit :=
  if py_eq_str observe_while "training" then
    s ← read _trainer_states_being_observed_while_training;
    s' ← lift (set_remove key s);
    update (set_training (fun _ => s'))
  else if py_eq_str observe_while "validating" then
    s ← read _trainer_states_being_observed_while_validating;
    s' ← lift (set_remove key s);
    update (set_validating (fun _ => s'))
  else
    raise NotImplementedError.

(** ** numpy *)

Definition ndim (a : ndarray) : nat := length (shape a).

Definition prod (dims : list nat) : nat := foldr Nat.mul 1%nat dims.

(** The items fill the shape. *)
Definition well_formed (a : ndarray) : Prop :=
  length (data a) = prod (shape a).

(** [a[i]], for an array of at least one dimension. *)
Definition item (a : ndarray) (i : nat) : ndarray :=
  let inner := tail (shape a) in
  {| shape := inner;
     data := take (prod inner) (drop (i * prod inner) (data a)) |}.

(** [list(a)]: the sub-arrays along the first axis. Python refuses to iterate
    over a 0-d array; every caller below has checked the dimension before. *)
Definition iterate (a : ndarray) : list ndarray :=
  map (item a) (seq 0 (hd 0%nat (shape a))).

Definition enumerate {A : Type} (l : list A) : list (nat * A) :=
  zip (seq 0 (length l)) l.

Definition map_data (f : Qc -> Qc) (a : ndarray) : ndarray :=
  {| shape := shape a; data := map f (data a) |}.

Definition Qc_min (x y : Qc) : Qc := if decide (y < x)%Qc then y else x.
Definition Qc_max (x y : Qc) : Qc := if decide (x < y)%Qc then y else x.

(** [a.min()] and [a.max()]; numpy raises [ValueError] on a zero-size array. *)
Definition amin (a : ndarray) : result Qc :=
  match data a with
  | [] => Raise ValueError
  | x :: xs => Ok (foldl Qc_min x xs)
  end.

Definition amax (a : ndarray) : result Qc :=
  match data a with
  | [] => Raise ValueError
  | x :: xs => Ok (foldl Qc_max x xs)
  end.

(** [a[None, ...]] and [a[..., None]]. *)
Definition expand_front (a : ndarray) : ndarray :=
  {| shape := 1%nat :: shape a; data := data a |}.
Definition expand_back (a : ndarray) : ndarray :=
  {| shape := shape a ++ [1%nat]; data := data a |}.

(** [a[:, None, ...]], for an array of at least one dimension. *)
Definition expand_axis1 (a : ndarray) : ndarray :=
  {| shape := hd 0%nat (shape a) :: 1%nat :: tail (shape a); data := data a |}.

(** The items of a 3-d array listed by index. *)
Definition tabulate3 (d0 d1 d2 : nat) (f : nat -> nat -> nat -> Qc) : list Qc :=
  flat_map (fun i =>
    flat_map (fun j => map (fun k => f i j k) (seq 0 d2)) (seq 0 d1)) (seq 0 d0).

Definition get3 (a : ndarray) (i j k : nat) : Qc :=
  match shape a with
  | [_; d1; d2] => nth ((i * d1 + j) * d2 + k) (data a) 0%Qc
  | _ => 0%Qc
  end.

(** [np.moveaxis(a, 0, 2)] on a 3-d array: [r[j, k, i] = a[i, j, k]]. *)
Definition moveaxis_0_2 (a : ndarray) : ndarray :=
  match shape a with
  | [d0; d1; d2] =>
      {| shape := [d1; d2; d0];
         data := tabulate3 d1 d2 d0 (fun j k i => get3 a i j k) |}
  | _ => a
  end.

(** [np.moveaxis(a, 2, 0)] on a 3-d array: [r[k, i, j] = a[i, j, k]]. *)
Definition moveaxis_2_0 (a : ndarray) : ndarray :=
  match shape a with
  | [d0; d1; d2] =>
      {| shape := [d2; d0; d1];
         data := tabulate3 d2 d0 d1 (fun k i j => get3 a i j k) |}
  | _ => a
  end.

(** [s.upper()] on ASCII text. *)
Definition upper_ascii (c : ascii) : ascii :=
  let n := nat_of_ascii c in
  if (97 <=? n)%nat && (n <=? 122)%nat then ascii_of_nat (n - 32) else c.

Fixpoint upper (s : string) : string :=
  match s with
  | EmptyString => EmptyString
  | String c s' => String (upper_ascii c) (upper s')
  end.

(** ** torch_utils *)

Definition dim (t : Tensor) : nat := ndim (numpy t).

(** Modelled from the spec: [tu.is_tensor] is not among the sources; the
    spec's values are tensors or plain Python values. *)
Definition is_tensor (o : pyobj) : bool :=
  match o with
  | PyTensor _ => true
  | _ => false
  end.

(** Modelled from the spec: [tu.is_image_tensor] is not among the sources.
    Glossary: an image tensor is an array with batch, channel, height and
    width axes. *)
Definition is_image_tensor (o : pyobj) : bool :=
  match o with
  | PyTensor t => (dim t =? 4)%nat
  | _ => false
  end.

(** Modelled from the spec: [tu.is_volume_tensor] is not among the sources.
    Glossary: a volume tensor is an array with batch, channel, depth, height
    and width axes. *)
Definition is_volume_tensor (o : pyobj) : bool :=
  match o with
  | PyTensor t => (dim t =? 5)%nat
  | _ => false
  end.

(** Modelled from the spec: [tu.is_image_or_volume_tensor] is not among the
    sources; it holds of image tensors and of volume tensors. *)
Definition is_image_or_volume_tensor (o : pyobj) : bool :=
  is_image_tensor o || is_volume_tensor o.

(** Modelled from the spec: [tu.is_label_image_or_volume_tensor] is not among
    the sources. Glossary: a label map is an image or volume missing an
    explicit channel axis, representing per-pixel class indices. *)
Definition is_label_image_or_volume_tensor (o : pyobj) : bool :=
  match o with
  | PyTensor t =>
      match dtype t with
      | LongTensor => (dim t =? 3)%nat || (dim t =? 4)%nat
      | FloatTensor => false
      end
  | _ => false
  end.

(** Modelled from the spec: [tu.is_scalar_tensor] is not among the sources.
    Section 4.3: a scalar is a 0-dimensional numeric tensor. *)
Definition is_scalar_tensor (o : pyobj) : bool :=
  match o with
  | PyTensor t => (dim t =? 0)%nat
  | _ => false
  end.

(** Modelled from the spec: [tu.is_vector_tensor] is not among the sources.
    Section 4.3: a 1-D vector tensor. *)
Definition is_vector_tensor (o : pyobj) : bool :=
  match o with
  | PyTensor t => (dim t =? 1)%nat
  | _ => false
  end.

(** Modelled from the spec: [tu.unwrap(t, extract_item=True)] is not among
    the sources; the scalar path emits the value the tensor holds. *)
Definition unwrap_item (t : Tensor) : Qc := hd 0%Qc (data (numpy t)).

(** Modelled from the spec: [pyu.is_maybe_list_of] is not among the sources.
    The extractor takes a batch or a list or tuple of batches, so the check
    holds of a list or tuple whose items all pass and of any other value that
    passes itself. *)
Definition is_maybe_list_of (check : pyobj -> bool) (o : pyobj) : bool :=
  match o with
  | PyList xs | PyTuple xs => forallb check xs
  | _ => check o
  end.

(** ** Image and volume extraction *)

Module TaggedImage.
Record t : Type := mk {
  array : ndarray;
  tag : string
}.
End TaggedImage.
Abbreviation TaggedImage := TaggedImage.t.

(** An item of the list [extract_images_from_batch] returns: a [TaggedImage]
    when a base tag was given, the bare array otherwise. *)
Inductive image_item : Type :=
| Tagged (image : TaggedImage)
| Bare (image : ndarray).

Definition _tag_image (image : ndarray) (base_tag : string)
    (prefix : option string) (instance_num channel_num slice_num : option nat)
    : TaggedImage :=
  let tag := base_tag in
  let tag := match prefix with
             | Some p => base_tag +:+ "/" +:+ p
             | None => tag
             end in
  let tag := match instance_num with
             | Some n => tag +:+ "/instance_" +:+ pretty n
             | None => tag
             end in
  let tag := match channel_num with
             | Some n => tag +:+ "/channel_" +:+ pretty n
             | None => tag
             end in
  let tag := match slice_num with
             | Some n => tag +:+ "/slice_" +:+ pretty n
             | None => tag
             end in
  {| TaggedImage.array := image; TaggedImage.tag := tag |}.

Definition py_assert (condition : bool) : result unit :=
  if condition then Ok tt else Raise AssertionError.

(** [range(n)] as a list of Python ints. *)
Definition range (n : nat) : list Z := map Z.of_nat (seq 0 n).

(** [num in indices] for the loop counter [num]. *)
Definition index_in (num : nat) (indices : list Z) : bool :=
  bool_decide (Z.of_nat num ∈ indices).

(** Resolution of the batch and of the channel selection (lines 294-312). *)
Definition resolve_indices (sel : index_selection) (axis_length : nat)
    : result (list Z) :=
  match sel with
  | SelStr s =>
      if String.eqb s "all" then Ok (range axis_length)
      else Raise NotImplementedError
  | SelList l => Ok l
  | SelInt z => Ok [z]
  | SelOther => Raise NotImplementedError
  end.

(** Resolution of the z selection (lines 326-336). *)
Definition resolve_z_indices (sel : index_selection) (axis_length : nat)
    : result (list Z) :=
  match sel with
  | SelStr s =>
      if String.eqb s "all" then Ok (range axis_length)
      else if String.eqb s "mid" then Ok [Z.of_nat (axis_length / 2)]
      else Raise NotImplementedError
  | SelList l => Ok l
  | SelInt z => Ok [z]
  | SelOther => Raise NotImplementedError
  end.

(** The guard on [prefix] that opens [extract_images_from_batch]. *)
Definition check_prefix (base_tag prefix : option string) : result unit :=
  match base_tag with
  | None => assert_ (bool_decide (prefix = None)) ValueError
  | Some _ => Ok tt
  end.

(** The element of the returned list for one selected image. *)
Definition emit (base_tag prefix : option string) (image : ndarray)
    (instance_num channel_num slice_num : option nat) : image_item :=
  match base_tag with
  | Some base =>
      Tagged (_tag_image image base prefix instance_num channel_num slice_num)
  | None => Bare image
  end.

(** [extract_images_from_batch] from line 286 on, where [batch] is no list
    and no tuple. *)
Definition extract_images_from_tensor (config : Config) (batch : pyobj)
    (base_tag prefix : option string) : result (list image_item) :=
  let batch_is_image_tensor := is_image_tensor batch in
  let batch_is_volume_tensor := is_volume_tensor batch in
  py_assert (negb (eqb batch_is_volume_tensor batch_is_image_tensor));;
  match batch with
  | PyTensor t =>
      let batch := numpy t in
      batch_indices ←
        resolve_indices (image_batch_indices config) (nth 0 (shape batch) 0%nat);
      channel_indices ←
        resolve_indices (image_channel_indices config) (nth 1 (shape batch) 0%nat);
      if batch_is_image_tensor then
        Ok (flat_map (fun '(instance_num, instance) =>
              flat_map (fun '(channel_num, image) =>
                if index_in instance_num batch_indices
                   && index_in channel_num channel_indices
                then [emit base_tag prefix image
                        (Some instance_num) (Some channel_num) None]
                else [])
                (enumerate (iterate instance)))
              (enumerate (iterate batch)))
      else
        py_assert batch_is_volume_tensor;;
        z_indices ←
          resolve_z_indices (volume_z_indices config) (nth 2 (shape batch) 0%nat);
        Ok (flat_map (fun '(instance_num, instance) =>
              flat_map (fun '(channel_num, volume) =>
                flat_map (fun '(slice_num, image) =>
                  if index_in instance_num batch_indices
                     && index_in channel_num channel_indices
                     && index_in slice_num z_indices
                  then [emit base_tag prefix image
                          (Some instance_num) (Some channel_num) (Some slice_num)]
                  else [])
                  (enumerate (iterate volume)))
                (enumerate (iterate instance)))
              (enumerate (iterate batch)))
  | _ => Raise AssertionError
  end.

Definition tensor_item (t : Tensor) (i : nat) : Tensor :=
  {| dtype := dtype t; numpy := item (numpy t) i |}.

(** [batch_num, _batch = e] for an [e] that is no list and no tuple: a tensor
    unpacks along its first axis, a string into its characters; both must
    yield exactly two items. *)
Definition unpack_pair (e : pyobj) : result (pyobj * pyobj) :=
  match e with
  | PyTensor t =>
      match shape (numpy t) with
      | [] => Raise TypeError
      | n :: _ =>
          if (n =? 2)%nat
          then Ok (PyTensor (tensor_item t 0), PyTensor (tensor_item t 1))
          else Raise ValueError
      end
  | PyStr (String c1 (String c2 EmptyString)) =>
      Ok (PyStr (String c1 EmptyString), PyStr (String c2 EmptyString))
  | PyStr _ => Raise ValueError
  | _ => Raise TypeError
  end.

Section Extraction.

(** ['{}'.format(o)]: the text Python and torch print for a value. *)
Variable format : pyobj -> string.

Variable config : Config.

(** The recursive call on a [_batch] that is no list and no tuple. *)
Definition extract_images_from_leaf (batch : pyobj)
    (base_tag prefix : option string) : result (list image_item) :=
  check_prefix base_tag prefix;;
  extract_images_from_tensor config batch base_tag prefix.

(** The loop of the list branch iterates over [batch] itself, not over
    [enumerate(batch)]: every item is unpacked into [batch_num, _batch]. *)
Fixpoint extract_images_from_batch (batch : pyobj)
    (base_tag prefix : option string) {struct batch}
    : result (list image_item) :=
  let for_each :=
    fix for_each (items : list pyobj) : result (list image_item) :=
      match items with
      | [] => Ok []
      | e :: items' =>
          extracted ←
            match e with
            | PyList xs | PyTuple xs =>
                match xs with
                | [batch_num; _batch] =>
                    extract_images_from_batch _batch base_tag
                      (Some ("batch_" +:+ format batch_num))
                | _ => Raise ValueError
                end
            | _ =>
                '(batch_num, _batch) ← unpack_pair e;
                extract_images_from_leaf _batch base_tag
                  (Some ("batch_" +:+ format batch_num))
            end;
          image_list ← for_each items';
          Ok (extracted ++ image_list)
      end in
  check_prefix base_tag prefix;;
  match batch with
  | PyList items | PyTuple items => for_each items
  | _ => extract_images_from_tensor config batch base_tag prefix
  end.

End Extraction.

(** ** Writer adapter *)

Definition TENSORBOARDX_IMAGE_FORMAT : string := "CHW".

Definition _order_image_axes (image : ndarray)
    (image_format target_format : string) : result ndarray :=
  if (ndim image =? 2)%nat then
    if String.eqb target_format "CHW" then Ok (expand_front image)
    else if String.eqb target_format "HWC" then Ok (expand_back image)
    else Raise NotImplementedError
  else if (ndim image =? 3)%nat && String.eqb (upper image_format) "CHW" then
    if String.eqb target_format "CHW" then Ok image
    else if String.eqb target_format "HCW" then Ok (moveaxis_0_2 image)
    else Raise NotImplementedError
  else if (ndim image =? 3)%nat && String.eqb (upper image_format) "HWC" then
    if String.eqb target_format "CHW" then Ok (moveaxis_2_0 image)
    else if String.eqb target_format "HWC" then Ok image
    else Raise NotImplementedError
  else Raise RuntimeError.

(** [image.min()] and [max()] raise [ValueError] on an array without items.
    The subtraction and the division are the exact ones: they are those of
    the source where numpy neither rounds, overflows nor wraps. *)
Definition _normalize_image (image : ndarray) : result ndarray :=
  lowest ← amin image;
  let normalized_image := map_data (fun x => x - lowest)%Qc image in
  maxval ← amax normalized_image;
  if decide (0 < maxval)%Qc
  then Ok (map_data (fun x => x / maxval)%Qc normalized_image)
  else Ok normalized_image.

(** The [writer] property followed by a call on the writer: the writer is
    built on first use and records the call. *)
Definition writer_call (w : write) : Method unit :=
  update (fun self =>
    {| trainer := trainer self;
       _writer := Some (default [] (_writer self) ++ [w]);
       _config := _config self;
       _trainer_states_being_observed_while_training :=
         _trainer_states_being_observed_while_training self;
       _trainer_states_being_observed_while_validating :=
         _trainer_states_being_observed_while_validating self;
       warnings_issued := warnings_issued self |}).

(** The calls the writer has received so far. *)
Definition writes (self : TensorboardLogger) : list write :=
  default [] (_writer self).

Definition log_scalar (tag : string) (value : Qc) (step : Z) : Method unit :=
  writer_call (add_scalar tag value step).

(** The loop of [log_images]; [tag] is rebound by every iteration and the
    next one starts from the rebound value. *)
Fixpoint log_images_loop (tag : string) (images : list (nat * image_item))
    (step : Z) (image_format : string) : Method unit :=
  match images with
  | [] => mret tt
  | (image_num, image) :: images' =>
      let '(tag, image) :=
        match image with
        | Tagged image => (TaggedImage.tag image, TaggedImage.array image)
        | Bare image => (tag +:+ "/" +:+ pretty image_num, image)
        end in
      image ← lift (_order_image_axes image image_format TENSORBOARDX_IMAGE_FORMAT);
      image ← lift (_normalize_image image);
      writer_call (add_image tag image step);;
      log_images_loop tag images' step image_format
  end.

Definition log_images (tag : string) (images : list image_item) (step : Z)
    (image_format : string) : Method unit :=
  lift (assert_ (bool_decide (upper image_format ∈ ["CHW"; "HWC"])) ValueError);;
  log_images_loop tag (enumerate images) step image_format.

Definition log_histogram (tag : string) (values : ndarray) (step : Z)
    : Method unit :=
  raise NotImplementedError.

Definition warn (tag : string) (size : list nat) : Method unit :=
  update (fun self =>
    {| trainer := trainer self;
       _writer := _writer self;
       _config := _config self;
       _trainer_states_being_observed_while_training :=
         _trainer_states_being_observed_while_training self;
       _trainer_states_being_observed_while_validating :=
         _trainer_states_being_observed_while_validating self;
       warnings_issued := warnings_issued self ++ [(tag, size)] |}).

Section Logging.

Variable format : pyobj -> string.

Definition log_image_or_volume_batch (tag : string) (batch : pyobj)
    (step : Z) : Method unit :=
  lift (py_assert (is_maybe_list_of is_image_or_volume_tensor batch));;
  count ← read (fun self => iteration_count (trainer self));
  let step := if (step =? 0)%Z then count else step in
  config ← read _config;
  image_list ← lift (extract_images_from_batch format config batch (Some tag) None);
  log_images tag image_list step "CHW".

(** [log_object] on an [object_] that is no list and no tuple
    (lines 206-230). *)
Definition log_object_leaf (tag : string) (object_ : pyobj)
    (allow_scalar_logging allow_image_logging allow_histogram_logging : bool)
    : Method unit :=
  count ← read (fun self => iteration_count (trainer self));
  match object_ with
  | PyTensor t =>
      if is_scalar_tensor object_ && allow_scalar_logging then
        log_scalar tag (unwrap_item t) count
      else if is_label_image_or_volume_tensor object_ && allow_image_logging then
        log_image_or_volume_batch tag
          (PyTensor {| dtype := dtype t; numpy := expand_axis1 (numpy t) |}) count
      else if is_image_or_volume_tensor object_ then
        if allow_image_logging
        then log_image_or_volume_batch tag object_ count
        else mret tt
      else if is_vector_tensor object_ && allow_histogram_logging then
        log_histogram tag (numpy t) count
      else warn tag (shape (numpy t))
  | PyFloat x =>
      if allow_scalar_logging then log_scalar tag x count else mret tt
  | PyInt z =>
      if allow_scalar_logging then
        value ← lift (float_of_int z);
        log_scalar tag value count
      else mret tt
  | _ => mret tt
  end.

Fixpoint log_object (tag : string) (object_ : pyobj)
    (allow_scalar_logging allow_image_logging allow_histogram_logging : bool)
    {struct object_} : Method unit :=
  match object_ with
  | PyList objects | PyTuple objects =>
      (fix for_each (object_num : nat) (objects : list pyobj) : Method unit :=
         match objects with
         | [] => mret tt
         | _object :: objects' =>
             log_object (tag +:+ "_" +:+ pretty object_num) _object
               allow_scalar_logging allow_image_logging allow_histogram_logging;;
             for_each (S object_num) objects'
         end) 0%nat objects
  | _ =>
      log_object_leaf tag object_
        allow_scalar_logging allow_image_logging allow_histogram_logging
  end.

End Logging.

(** ** Vocabulary of the properties *)

(** The registry a canonical phase token names. *)
Definition states_observed_while (observe_while : string)
    (self : TensorboardLogger) : gset string :=
  if String.eqb observe_while "training"
  then _trainer_states_being_observed_while_training self
  else _trainer_states_being_observed_while_validating self.

(** The phase tokens [observe_state] accepts. *)
Definition phase_tokens : list pyobj :=
  [PyStr "training"; PyStr "train"; PyStr "validating"; PyStr "validation"].

(** The character is a decimal digit. *)
Definition is_digit (c : ascii) : bool :=
  let n := nat_of_ascii c in (48 <=? n)%nat && (n <=? 57)%nat.

Fixpoint all_digits (s : string) : bool :=
  match s with
  | EmptyString => true
  | String c s' => is_digit c && all_digits s'
  end.

(** The tags of the tagged images of a list, in order. *)
Definition image_tags (images : list image_item) : list string :=
  flat_map (fun image_ =>
    match image_ with
    | Tagged image => [TaggedImage.tag image]
    | Bare _ => []
    end) images.

(** [torch.zeros] of the given shape. *)
Definition zeros (dims : list nat) : Tensor :=
  {| dtype := FloatTensor;
     numpy := {| shape := dims; data := repeat 0%Qc (prod dims) |} |}.

(** The scalars of section 4.3 and the float each one is logged as: a
    0-dimensional tensor, a plain float, a plain int that [float] converts. *)
Inductive scalar_value : pyobj -> Qc -> Prop :=
| scalar_tensor (dt : torch_dtype) (v : Qc) :
    scalar_value (PyTensor (mk_Tensor dt (mk_ndarray [] [v]))) v
| scalar_float (x : Qc) : scalar_value (PyFloat x) x
| scalar_int (z : Z) (v : Qc) :
    float_of_int z = Ok v -> scalar_value (PyInt z) v.

(** [self'] is [self] after the writer received the calls [ws] and nothing
    else happened. *)
Definition wrote (ws : list write) (self self' : TensorboardLogger) : Prop :=
  writes self' = writes self ++ ws
  /\ trainer self' = trainer self
  /\ _config self' = _config self
  /\ _trainer_states_being_observed_while_training self'
     = _trainer_states_being_observed_while_training self
  /\ _trainer_states_being_observed_while_validating self'
     = _trainer_states_being_observed_while_validating self
  /\ warnings_issued self' = warnings_issued self.

(** ** Registry: batch forms and callbacks *)

(** [observe_states]; [keys] are the items the loop [for key in keys]
    visits. *)
Fixpoint observe_states (keys : list pyobj) (observe_while : pyobj)
    : Method unit :=
  match keys with
  | [] => mret tt
  | key :: keys' =>
      observe_state key observe_while;;
      observe_states keys' observe_while
  end.

Fixpoint unobserve_states (keys : list pyobj) (observe_while : pyobj)
    : Method unit :=
  match keys with
  | [] => mret tt
  | key :: keys' =>
      unobserve_state key observe_while;;
      unobserve_states keys' observe_while
  end.

Section Callbacks.

(** ['{}'.format(o)]: the text Python and torch print for a value. *)
Variable format : pyobj -> string.

(** [self.trainer.get_state(key, default=None)]: the trainer is not among the
    sources; the value it returns for a key is taken as given. *)
Variable get_state : string -> pyobj.

(** The order in which Python visits the items of a set, which the language
    leaves open. *)
Variable iteration_order : gset string -> list string.

Definition observe_training_and_validation_state (key : pyobj) : Method unit :=
  observe_state (PyStr ("training" +:+ "_" +:+ format key)) (PyStr "training");;
  observe_state (PyStr ("validation" +:+ "_" +:+ format key)) (PyStr "validation").

Fixpoint observe_training_and_validation_states (keys : list pyobj)
    : Method unit :=
  match keys with
  | [] => mret tt
  | key :: keys' =>
      observe_training_and_validation_state key;;
      observe_training_and_validation_states keys'
  end.

(** The loop shared by [end_of_training_iteration] and
    [end_of_validation_run]: read every observed state, skip the ones the
    trainer does not have, log the others. [log_object] is called without
    [allow_histogram_logging], which defaults to [True]. *)
Fixpoint log_states (state_keys : list string)
    (allow_scalar_logging allow_image_logging : bool) : Method unit :=
  match state_keys with
  | [] => mret tt
  | state_key :: state_keys' =>
      match get_state state_key with
      | PyNone => mret tt
      | state =>
          log_object format state_key state
            allow_scalar_logging allow_image_logging true
      end;;
      log_states state_keys' allow_scalar_logging allow_image_logging
  end.

(** [end_of_training_iteration]; the two arguments are the values the
    properties [log_scalars_now] and [log_images_now] return, which the
    frequency objects of [train_utils] (not among the sources) decide. *)
Definition end_of_training_iteration (log_scalars_now log_images_now : bool)
    : Method unit :=
  if negb log_scalars_now && negb log_images_now then mret tt
  else
    state_keys ← read (fun self =>
      iteration_order (_trainer_states_being_observed_while_training self));
    log_states state_keys log_scalars_now log_images_now.

Definition end_of_validation_run : Method unit :=
  state_keys ← read (fun self =>
    iteration_order (_trainer_states_being_observed_while_validating self));
  log_states state_keys true true.

End Callbacks.

(** ** Vocabulary of the further properties *)

(** The loop counters below [n] that the selection [indices] holds, in
    increasing order. *)
Definition selected (indices : list Z) (n : nat) : list nat :=
  filter (fun i => Z.of_nat i ∈ indices) (seq 0 n).

(** The tag each image of a list is written under by [log_images]: a tagged
    image brings its own, a bare one extends the tag of its predecessor. *)
Fixpoint written_tags (tag : string) (images : list (nat * image_item))
    : list string :=
  match images with
  | [] => []
  | (image_num, Tagged image) :: images' =>
      TaggedImage.tag image :: written_tags (TaggedImage.tag image) images'
  | (image_num, Bare _) :: images' =>
      (tag +:+ "/" +:+ pretty image_num)
      :: written_tags (tag +:+ "/" +:+ pretty image_num) images'
  end.

(** The array of an image item. *)
Definition item_array (image : image_item) : ndarray :=
  match image with
  | Tagged image => TaggedImage.array image
  | Bare image => image
  end.

(** What [log_images] hands to the writer for one image. *)
Definition prepare (image_format : string) (image : ndarray) : result ndarray :=
  image ← _order_image_axes image image_format TENSORBOARDX_IMAGE_FORMAT;
  _normalize_image image.

(** The logger after [f] was applied to the registry the phase token
    [observe_while] names in [observe_state]. *)
Definition with_observed (observe_while : string)
    (f : gset string -> gset string) (self : TensorboardLogger)
    : TensorboardLogger :=
  if bool_decide (observe_while ∈ ["training"; "train"])
  then set_training f self
  else set_validating f self.

(** The tag of a call the writer received. *)
Definition write_tag (w : write) : string :=
  match w with
  | add_scalar tag _ _ => tag
  | add_image tag _ _ => tag
  end.

(** The loop of [log_object] over the items of a list or tuple, from the
    position [object_num] on. *)
Fixpoint log_objects_from (format : pyobj -> string) (tag : string)
    (object_num : nat) (objects : list pyobj)
    (allow_scalar_logging allow_image_logging allow_histogram_logging : bool)
    : Method unit :=
  match objects with
  | [] => mret tt
  | _object :: objects' =>
      log_object format (tag +:+ "_" +:+ pretty object_num) _object
        allow_scalar_logging allow_image_logging allow_histogram_logging;;
      log_objects_from format tag (S object_num) objects'
        allow_scalar_logging allow_image_logging allow_histogram_logging
  end.

(** A state the trainer does not have, or a plain number within the range
    of the floats: a float, or an int whose magnitude is below
    2^1024 - 2^970, the least one that rounds to 2^1024. *)
Definition absent_or_number (state : pyobj) : Prop :=
  match state with
  | PyNone | PyFloat _ => True
  | PyInt z => (Z.abs z < 2 ^ 1024 - 2 ^ 970)%Z
  | _ => False
  end.

(** The scalar written for the state of a key, if the state is a number:
    a float as it is, an int as the float nearest to it. *)
Definition number_write (get_state : string -> pyobj) (step : Z)
    (state_key : string) : option write :=
  match get_state state_key with
  | PyFloat x => Some (add_scalar state_key x step)
  | PyInt z =>
      match float_of_int z with
      | Ok value => Some (add_scalar state_key value step)
      | Raise _ => None
      end
  | _ => None
  end.

(** The iteration over a set visits every item once and nothing else. *)
Definition visits_each_item_once (iteration_order : gset string -> list string)
    : Prop :=
  forall s : gset string,
    NoDup (iteration_order s) /\ forall k, k ∈ iteration_order s <-> k ∈ s.

(** * Properties *)

(** ** Observation registry *)

Lemma keyword_mapping_get_other (observe_while : pyobj) :
  observe_while ∉ phase_tokens ->
  keyword_mapping_get observe_while = Ok None
  \/ keyword_mapping_get observe_while = Raise TypeError.
Proof.
  intros Hnot. unfold keyword_mapping_get.
  destruct (hashable observe_while); simpl; [|by right].
  left. destruct observe_while as [| | |s| | |]; try done.
  destruct (String.eqb_spec s "train") as [->|_].
  { exfalso. apply Hnot. unfold phase_tokens. rewrite !elem_of_cons. tauto. }
  destruct (String.eqb_spec s "training") as [->|_].
  { exfalso. apply Hnot. unfold phase_tokens. rewrite !elem_of_cons. tauto. }
  destruct (String.eqb_spec s "validation") as [->|_].
  { exfalso. apply Hnot. unfold phase_tokens. rewrite !elem_of_cons. tauto. }
  destruct (String.eqb_spec s "validating") as [->|_].
  { exfalso. apply Hnot. unfold phase_tokens. rewrite !elem_of_cons. tauto. }
  done.
Qed.

Lemma keyword_mapping_get_cases (observe_while : pyobj) :
  keyword_mapping_get observe_while = Raise TypeError
  \/ keyword_mapping_get observe_while = Ok None
  \/ keyword_mapping_get observe_while = Ok (Some "training")
  \/ keyword_mapping_get observe_while = Ok (Some "validating").
Proof.
  unfold keyword_mapping_get.
  destruct (hashable observe_while); simpl; [|by left].
  destruct observe_while as [| | |s| | |]; auto.
  repeat (case_match; auto).
Qed.

(** An invalid phase token: [ValueError] (or [TypeError] when the token
    cannot be hashed), whatever the key. *)
Lemma observe_state_invalid_phase (key observe_while : pyobj)
    (self : TensorboardLogger) :
  observe_while ∉ phase_tokens ->
  observe_state key observe_while self
  = (Raise (if hashable observe_while then ValueError else TypeError), self).
Proof.
  intros Hnot. unfold observe_state, mbind, Method_bind, lift.
  destruct (keyword_mapping_get_other _ Hnot) as [E|E]; rewrite E.
  - unfold keyword_mapping_get in E.
    destruct (hashable observe_while); [done|discriminate].
  - unfold keyword_mapping_get in E.
    destruct (hashable observe_while); simpl in E; [|done].
    destruct observe_while; try discriminate. by repeat case_match.
Qed.

(** A key that is not a string: [TypeError] when the phase token is valid. *)
Lemma observe_state_invalid_key (key observe_while : pyobj)
    (self : TensorboardLogger) :
  observe_while ∈ phase_tokens ->
  isinstance_str key = false ->
  observe_state key observe_while self = (Raise TypeError, self).
Proof.
  intros Hin Hkey. unfold observe_state, mbind, Method_bind, lift.
  unfold phase_tokens in Hin. rewrite !elem_of_cons, elem_of_nil in Hin.
  destruct Hin as [-> | [-> | [-> | [-> | []]]]]; simpl; by rewrite Hkey.
Qed.

(** C9: a call of [observe_state] with a phase token outside
    training / train / validating / validation, or with a key that is not a
    string, raises an invalid-argument error ([ValueError] or [TypeError])
    and leaves the logger, hence both registries, as it was. *)
Theorem observe_state_rejects_invalid_arguments (key observe_while : pyobj)
    (self : TensorboardLogger) :
  observe_while ∉ phase_tokens \/ isinstance_str key = false ->
  exists e : exn,
    observe_state key observe_while self = (Raise e, self)
    /\ is_invalid_argument e = true.
Proof.
  intros [Hphase|Hkey].
  - rewrite observe_state_invalid_phase by done.
    eexists; split; [done|]. by destruct (hashable observe_while).
  - unfold observe_state, mbind, Method_bind, lift.
    destruct (keyword_mapping_get_cases observe_while) as [E | [E | [E | E]]];
      rewrite E; simpl; rewrite ?Hkey; by eexists.
Qed.

Lemma observe_state_rejects_invalid_arguments_witness :
  exists e : exn,
    observe_state (PyInt 7) (PyStr "testing") (init (mk_Trainer 5 0))
    = (Raise e, init (mk_Trainer 5 0))
    /\ is_invalid_argument e = true.
Proof.
  apply (observe_state_rejects_invalid_arguments
           (PyInt 7) (PyStr "testing") (init (mk_Trainer 5 0))).
  right. reflexivity.
Defined.

(** C10: [unobserve_state] does not take the aliases: with the phase token
    'train' or 'validation' it raises [NotImplementedError] for every key and
    leaves the logger, hence both registries, as it was, whereas
    [observe_state] maps the same tokens onto the training and the validating
    registry. *)
Theorem unobserve_state_rejects_aliases (key : pyobj) (k : string)
    (self : TensorboardLogger) :
  unobserve_state key (PyStr "train") self = (Raise NotImplementedError, self)
  /\ unobserve_state key (PyStr "validation") self
     = (Raise NotImplementedError, self)
  /\ observe_state (PyStr k) (PyStr "train") self
     = (Ok tt, set_training (fun s => {[ k ]} ∪ s) self)
  /\ observe_state (PyStr k) (PyStr "validation") self
     = (Ok tt, set_validating (fun s => {[ k ]} ∪ s) self).
Proof. repeat split. Qed.

Lemma set_add_remove (k : string) (s : gset string) :
  k ∉ s -> set_remove (PyStr k) ({[ k ]} ∪ s) = Ok s.
Proof.
  intros Hk. unfold set_remove. simpl.
  rewrite bool_decide_true by (apply elem_of_union; left; by apply elem_of_singleton).
  f_equal. apply leibniz_equiv. intros x.
  rewrite elem_of_difference, elem_of_union, elem_of_singleton.
  split; [tauto|]. intros Hx. split; [tauto|]. by intros ->.
Qed.

(** C2, as amended: for a string key that the registry of the phase does not
    hold yet and the phase token 'training' or 'validating',
    [observe_state] followed by [unobserve_state] with the same arguments
    succeeds and leaves the logger, hence the registry of that phase, as it
    was before [observe_state]. *)
Theorem observe_then_unobserve (key observe_while : string)
    (self : TensorboardLogger) :
  observe_while ∈ ["training"; "validating"] ->
  key ∉ states_observed_while observe_while self ->
  (observe_state (PyStr key) (PyStr observe_while);;
   unobserve_state (PyStr key) (PyStr observe_while)) self
  = (Ok tt, self).
Proof.
  intros Hphase Hkey. rewrite !elem_of_cons, elem_of_nil in Hphase.
  destruct Hphase as [-> | [-> | []]]; unfold states_observed_while in Hkey;
    simpl in Hkey; destruct self; simpl in Hkey;
    cbv [mbind Method_bind observe_state unobserve_state lift read
      update set_training set_validating]; simpl;
    rewrite (set_add_remove _ _ Hkey); reflexivity.
Qed.

Lemma observe_then_unobserve_witness :
  (observe_state (PyStr "gradient_norm") (PyStr "validating");;
   unobserve_state (PyStr "gradient_norm") (PyStr "validating"))
    (init (mk_Trainer 0 0))
  = (Ok tt, init (mk_Trainer 0 0)).
Proof.
  apply (observe_then_unobserve "gradient_norm" "validating"
           (init (mk_Trainer 0 0))).
  - rewrite !elem_of_cons. right. left. reflexivity.
  - vm_compute. intros H. discriminate H.
Defined.

(** C2, counterexample: 'training_loss' is observed by default; observing it
    again changes nothing, so the [unobserve_state] that follows removes it
    and the training registry differs from the one before [observe_state]. *)
Lemma observe_then_unobserve_observed_key :
  exists after : TensorboardLogger,
    (observe_state (PyStr "training_loss") (PyStr "training");;
     unobserve_state (PyStr "training_loss") (PyStr "training"))
      (init (mk_Trainer 0 0))
    = (Ok tt, after)
    /\ _trainer_states_being_observed_while_training after
       <> _trainer_states_being_observed_while_training (init (mk_Trainer 0 0)).
Proof.
  eexists. split.
  - vm_compute. reflexivity.
  - intros Heq.
    apply (f_equal (fun s : gset string => bool_decide ("training_loss" ∈ s)))
      in Heq.
    vm_compute in Heq. discriminate Heq.
Qed.

(** Unobserving a key that the registry does not hold fails with [KeyError]
    and changes nothing. *)
Lemma unobserve_state_absent_key (key observe_while : string)
    (self : TensorboardLogger) :
  observe_while ∈ ["training"; "validating"] ->
  key ∉ states_observed_while observe_while self ->
  unobserve_state (PyStr key) (PyStr observe_while) self = (Raise KeyError, self).
Proof.
  intros Hphase Hkey. rewrite !elem_of_cons, elem_of_nil in Hphase.
  destruct Hphase as [-> | [-> | []]]; unfold states_observed_while in Hkey;
    simpl in Hkey;
    cbv [mbind Method_bind unobserve_state lift read update py_eq_str];
    simpl; unfold set_remove; simpl;
    by rewrite bool_decide_false.
Qed.

(** ** Pixel normalisation *)

Lemma map_data_id (f : Qc -> Qc) (a : ndarray) :
  (forall x, f x = x) -> map_data f a = a.
Proof.
  intros Hf. destruct a as [sh items]. unfold map_data. simpl. f_equal.
  induction items as [|x items IH]; simpl; [done|]. by rewrite Hf, IH.
Qed.

(** C7: normalising an image whose minimum is 0 and whose maximum is 1
    returns the image itself (items are exact rationals, so the result is
    equal, not merely close). *)
Theorem normalize_image_idempotent (image : ndarray) :
  amin image = Ok 0%Qc ->
  amax image = Ok 1%Qc ->
  _normalize_image image = Ok image.
Proof.
  intros Hmin Hmax. unfold _normalize_image. rewrite Hmin. simpl.
  assert (map_data (fun x => x - 0)%Qc image = image) as ->.
  { apply map_data_id. intros x. apply (right_id 0%Qc Qcminus). }
  rewrite Hmax. simpl.
  destruct (decide (0 < 1)%Qc) as [_|Hn]; [|by destruct Hn].
  f_equal. apply map_data_id. intros x. apply (right_id 1%Qc Qcdiv).
Qed.

Lemma normalize_image_idempotent_witness :
  _normalize_image (mk_ndarray [2; 2]%nat [0; 1; Q2Qc (1 # 2); 1]%Qc)
  = Ok (mk_ndarray [2; 2]%nat [0; 1; Q2Qc (1 # 2); 1]%Qc).
Proof.
  apply (normalize_image_idempotent
           (mk_ndarray [2; 2]%nat [0; 1; Q2Qc (1 # 2); 1]%Qc)).
  - vm_compute. reflexivity.
  - vm_compute. reflexivity.
Defined.

Lemma foldl_Qc_min_zero (items : list Qc) :
  Forall (fun x => x = 0%Qc) items -> foldl Qc_min 0%Qc items = 0%Qc.
Proof.
  induction 1 as [|x items -> _ IH]; simpl; [done|].
  unfold Qc_min at 2. by destruct (decide (0 < 0)%Qc).
Qed.

Lemma foldl_Qc_max_zero (items : list Qc) :
  Forall (fun x => x = 0%Qc) items -> foldl Qc_max 0%Qc items = 0%Qc.
Proof.
  induction 1 as [|x items -> _ IH]; simpl; [done|].
  unfold Qc_max at 2. by destruct (decide (0 < 0)%Qc).
Qed.

(** C8, as amended: for an all-zero image that holds at least one item,
    [_normalize_image] does not raise (the maximum is not positive, so the
    division is skipped) and returns an all-zero image of the same shape. *)
Theorem normalize_image_all_zero (image : ndarray) :
  data image <> [] ->
  Forall (fun x => x = 0%Qc) (data image) ->
  exists normalized : ndarray,
    _normalize_image image = Ok normalized
    /\ shape normalized = shape image
    /\ Forall (fun x => x = 0%Qc) (data normalized).
Proof.
  intros Hne Hzero. exists image. split; [|done].
  unfold _normalize_image, amin.
  destruct (data image) as [|x items] eqn:Hdata; [done|].
  inversion Hzero as [|? ? -> Hitems]; subst.
  rewrite foldl_Qc_min_zero by done. simpl.
  assert (map_data (fun x => x - 0)%Qc image = image) as ->.
  { apply map_data_id. intros x. apply (right_id 0%Qc Qcminus). }
  unfold amax. rewrite Hdata. rewrite foldl_Qc_max_zero by done. simpl.
  by destruct (decide (0 < 0)%Qc).
Qed.

Lemma normalize_image_all_zero_witness :
  exists normalized : ndarray,
    _normalize_image (mk_ndarray [2; 3]%nat [0; 0; 0; 0; 0; 0]%Qc)
    = Ok normalized
    /\ shape normalized = [2; 3]%nat
    /\ Forall (fun x => x = 0%Qc) (data normalized).
Proof.
  apply (normalize_image_all_zero (mk_ndarray [2; 3]%nat [0; 0; 0; 0; 0; 0]%Qc)).
  - simpl. discriminate.
  - simpl. repeat constructor.
Defined.

(** C8, counterexample: an image of shape (2, 0) holds no item, so all its
    items are zero, and [_normalize_image] raises the [ValueError] of
    [image.min()]. *)
Lemma normalize_image_zero_size :
  well_formed (mk_ndarray [2; 0]%nat [])
  /\ Forall (fun x => x = 0%Qc) (data (mk_ndarray [2; 0]%nat []))
  /\ _normalize_image (mk_ndarray [2; 0]%nat []) = Raise ValueError.
Proof. repeat split. constructor. Qed.

(** ** Axis reordering *)

Section Chunks.

Variable g : nat -> list Qc.
Variable m : nat.

(** Concatenating [n] chunks of [m] items each: item [r] of chunk [i] sits
    at position [i * m + r]. *)
Lemma nth_flat_map_chunks (n s i r : nat) :
  (forall x, length (g x) = m) ->
  (i < n)%nat -> (r < m)%nat ->
  nth (i * m + r) (flat_map g (seq s n)) 0%Qc = nth r (g (s + i)) 0%Qc.
Proof.
  intros Hlen. revert s i. induction n as [|n IH]; intros s i Hi Hr; [lia|].
  simpl. destruct i as [|i].
  - simpl. rewrite app_nth1 by (rewrite Hlen; lia). by rewrite Nat.add_0_r.
  - rewrite app_nth2 by (rewrite Hlen; lia). rewrite Hlen.
    replace (S i * m + r - m)%nat with (i * m + r)%nat by lia.
    rewrite IH by lia. f_equal. f_equal. lia.
Qed.

Lemma length_flat_map_chunks (n s : nat) :
  (forall x, length (g x) = m) ->
  length (flat_map g (seq s n)) = (n * m)%nat.
Proof.
  intros Hlen. rewrite flat_map_constant_length with (c := m) by auto.
  by rewrite List.length_seq.
Qed.

End Chunks.

Lemma length_row (d2 : nat) (f : nat -> Qc) :
  length (map f (seq 0 d2)) = d2.
Proof. by rewrite List.length_map, List.length_seq. Qed.

Lemma length_plane (d1 d2 : nat) (f : nat -> nat -> Qc) :
  length (flat_map (fun j => map (fun k => f j k) (seq 0 d2)) (seq 0 d1))
  = (d1 * d2)%nat.
Proof. apply length_flat_map_chunks. intros j. apply length_row. Qed.

Lemma length_tabulate3 (d0 d1 d2 : nat) (f : nat -> nat -> nat -> Qc) :
  length (tabulate3 d0 d1 d2 f) = (d0 * (d1 * d2))%nat.
Proof.
  unfold tabulate3. apply length_flat_map_chunks. intros i. apply length_plane.
Qed.

Lemma nth_tabulate3 (d0 d1 d2 : nat) (f : nat -> nat -> nat -> Qc) (i j k : nat) :
  (i < d0)%nat -> (j < d1)%nat -> (k < d2)%nat ->
  nth ((i * d1 + j) * d2 + k) (tabulate3 d0 d1 d2 f) 0%Qc = f i j k.
Proof.
  intros Hi Hj Hk. unfold tabulate3.
  replace ((i * d1 + j) * d2 + k)%nat with (i * (d1 * d2) + (j * d2 + k))%nat
    by lia.
  rewrite (nth_flat_map_chunks _ (d1 * d2)); [|intros; apply length_plane|done|nia].
  rewrite (nth_flat_map_chunks _ d2); [|intros; apply length_row|done|done].
  simpl. rewrite (nth_indep _ 0%Qc (f i j 0%nat)) by (by rewrite length_row).
  rewrite (List.map_nth (fun k => f i j k) _ 0%nat).
  by rewrite List.seq_nth.
Qed.

(** Listing the items of a 3-d array by index gives back its data. *)
Lemma tabulate3_nth (d0 d1 d2 : nat) (items : list Qc) :
  length items = (d0 * (d1 * d2))%nat ->
  tabulate3 d0 d1 d2 (fun i j k => nth ((i * d1 + j) * d2 + k) items 0%Qc)
  = items.
Proof.
  intros Hlen. apply (nth_ext _ _ 0%Qc 0%Qc).
  { by rewrite length_tabulate3. }
  intros n Hn. rewrite length_tabulate3 in Hn.
  assert (d2 <> 0)%nat as Hd2 by lia.
  assert (d1 <> 0)%nat as Hd1 by lia.
  pose proof (Nat.div_mod_eq n d2) as Hn2.
  pose proof (Nat.mod_upper_bound n d2 Hd2) as Hk.
  pose proof (Nat.div_mod_eq (n / d2) d1) as Hn1.
  pose proof (Nat.mod_upper_bound (n / d2) d1 Hd1) as Hj.
  set (k := (n mod d2)%nat) in *. set (q := (n / d2)%nat) in *.
  set (j := (q mod d1)%nat) in *. set (i := (q / d1)%nat) in *.
  clearbody i j. clearbody k q. rewrite Hn1 in Hn2.
  assert (i < d0)%nat as Hi.
  { destruct (Nat.lt_ge_cases i d0) as [|Hge]; [done|].
    pose proof (Nat.mul_le_mono_r _ _ (d1 * d2) Hge). lia. }
  assert (n = (i * d1 + j) * d2 + k)%nat as -> by lia.
  by apply nth_tabulate3.
Qed.

Lemma tabulate3_ext (d0 d1 d2 : nat) (f g : nat -> nat -> nat -> Qc) :
  (forall i j k, (i < d0)%nat -> (j < d1)%nat -> (k < d2)%nat ->
                 f i j k = g i j k) ->
  tabulate3 d0 d1 d2 f = tabulate3 d0 d1 d2 g.
Proof.
  intros Hfg. unfold tabulate3.
  rewrite !flat_map_concat_map. f_equal.
  apply map_ext_in. intros i Hi%in_seq.
  rewrite !flat_map_concat_map. f_equal.
  apply map_ext_in. intros j Hj%in_seq.
  apply map_ext_in. intros k Hk%in_seq.
  apply Hfg; lia.
Qed.

(** Moving the channel axis to the end and back to the front gives back the
    array. *)
Lemma moveaxis_2_0_0_2 (a : ndarray) :
  ndim a = 3%nat -> well_formed a -> moveaxis_2_0 (moveaxis_0_2 a) = a.
Proof.
  destruct a as [sh items]. unfold ndim, well_formed. simpl.
  destruct sh as [|d0 [|d1 [|d2 [|]]]]; try discriminate. intros _ Hlen.
  simpl in Hlen. rewrite Nat.mul_1_r in Hlen.
  unfold moveaxis_0_2, moveaxis_2_0. simpl. f_equal.
  etransitivity; [|apply (tabulate3_nth d0 d1 d2 items Hlen)].
  apply tabulate3_ext. intros i j k Hi Hj Hk.
  unfold get3 at 1. simpl. rewrite nth_tabulate3 by done.
  unfold get3. simpl. done.
Qed.

Lemma moveaxis_0_2_2_0 (a : ndarray) :
  ndim a = 3%nat -> well_formed a -> moveaxis_0_2 (moveaxis_2_0 a) = a.
Proof.
  destruct a as [sh items]. unfold ndim, well_formed. simpl.
  destruct sh as [|d0 [|d1 [|d2 [|]]]]; try discriminate. intros _ Hlen.
  simpl in Hlen. rewrite Nat.mul_1_r in Hlen.
  unfold moveaxis_0_2, moveaxis_2_0. simpl. f_equal.
  etransitivity; [|apply (tabulate3_nth d0 d1 d2 items Hlen)].
  apply tabulate3_ext. intros i j k Hi Hj Hk.
  unfold get3 at 1. simpl.
  rewrite nth_tabulate3 by done.
  unfold get3. simpl. done.
Qed.

(** With the target token 'HCW', the one the CHW branch tests for, the
    conversion succeeds and converting the result from HWC back to CHW gives
    back the array. *)
Lemma order_image_axes_hcw_round_trip (image : ndarray) :
  ndim image = 3%nat -> well_formed image ->
  (moved ← _order_image_axes image "CHW" "HCW";
   _order_image_axes moved "HWC" "CHW") = Ok image.
Proof.
  intros Hdim Hwf. unfold _order_image_axes at 2. rewrite Hdim. simpl.
  assert (ndim (moveaxis_0_2 image) = 3%nat) as Hmoved.
  { destruct image as [sh items]. unfold ndim in *. simpl in Hdim.
    destruct sh as [|d0 [|d1 [|d2 [|]]]]; by try discriminate. }
  unfold _order_image_axes. rewrite Hmoved. simpl.
  by rewrite moveaxis_2_0_0_2.
Qed.

(** C1: on the code, the conversion of a 3-d image from CHW to HWC does not
    return: the CHW branch compares the target with 'HCW', so the target
    'HWC' falls through to [NotImplementedError] and there is no array to
    convert back. *)
Theorem order_image_axes_chw_to_hwc_raises (image : ndarray) :
  ndim image = 3%nat ->
  _order_image_axes image "CHW" "HWC" = Raise NotImplementedError.
Proof. intros Hdim. unfold _order_image_axes. by rewrite Hdim. Qed.

Lemma order_image_axes_chw_to_hwc_raises_witness :
  _order_image_axes (mk_ndarray [1; 2; 2]%nat [0; 1; 1; 0]%Qc) "CHW" "HWC"
  = Raise NotImplementedError.
Proof.
  apply (order_image_axes_chw_to_hwc_raises
           (mk_ndarray [1; 2; 2]%nat [0; 1; 1; 0]%Qc)).
  reflexivity.
Defined.

(** ** Tags *)

Lemma pretty_N_char_digit (x : N) : is_digit (pretty_N_char x) = true.
Proof. unfold pretty_N_char. by repeat case_match. Qed.

Lemma pretty_N_go_digits (x : N) (s : string) :
  all_digits s = true -> all_digits (pretty_N_go x s) = true.
Proof.
  revert s. induction (N.lt_wf_0 x) as [x _ IH]. intros s Hs.
  destruct (decide (x = 0)%N) as [->|Hx]; [by rewrite pretty_N_go_0|].
  rewrite pretty_N_go_step by lia. apply IH.
  - apply N.div_lt; lia.
  - simpl. by rewrite pretty_N_char_digit.
Qed.

Lemma pretty_nat_digits (n : nat) : all_digits (pretty n) = true.
Proof.
  unfold pretty, pretty_nat, pretty, pretty_N.
  case_decide; [done|]. by apply pretty_N_go_digits.
Qed.

(** Two texts that start with digits and continue with the same character,
    which is no digit, split at the same place. *)
Lemma digits_split (d1 d2 : string) (c : ascii) (r1 r2 : string) :
  all_digits d1 = true -> all_digits d2 = true -> is_digit c = false ->
  d1 +:+ String c r1 = d2 +:+ String c r2 -> d1 = d2 /\ r1 = r2.
Proof.
  revert d2. induction d1 as [|a d1 IH]; intros [|b d2] H1 H2 Hc Heq;
    simpl in *.
  - by inversion Heq.
  - inversion Heq; subst. apply andb_prop in H2 as [H2 _]. congruence.
  - inversion Heq; subst. apply andb_prop in H1 as [H1 _]. congruence.
  - inversion Heq; subst.
    apply andb_prop in H1 as [_ H1]. apply andb_prop in H2 as [_ H2].
    destruct (IH d2 H1 H2 Hc) as [-> ->]; done.
Qed.

Lemma string_app_assoc (s1 s2 s3 : string) :
  (s1 +:+ s2) +:+ s3 = s1 +:+ s2 +:+ s3.
Proof.
  induction s1 as [|c s1 IH]; [done|].
  change (String c ((s1 +:+ s2) +:+ s3) = String c (s1 +:+ s2 +:+ s3)).
  by rewrite IH.
Qed.

(** The tag of an image determines its instance and channel number. *)
Lemma tag_image_inj (image image' : ndarray) (base_tag : string)
    (prefix : option string) (i c i' c' : nat) :
  TaggedImage.tag (_tag_image image base_tag prefix (Some i) (Some c) None)
  = TaggedImage.tag (_tag_image image' base_tag prefix (Some i') (Some c') None) ->
  i = i' /\ c = c'.
Proof.
  unfold _tag_image. simpl.
  set (stem := match prefix with
               | Some p => base_tag +:+ "/" +:+ p
               | None => base_tag
               end).
  rewrite !string_app_assoc. intros Heq.
  apply (inj (String.app stem)) in Heq.
  apply (inj (String.app "/instance_")) in Heq.
  apply digits_split in Heq as [Hi Hc];
    [|apply pretty_nat_digits|apply pretty_nat_digits|done].
  apply (inj pretty) in Hi.
  apply (inj (String.app "channel_")) in Hc.
  apply (inj pretty) in Hc. done.
Qed.

(** ** List comprehensions *)

Lemma zip_map_r {A B : Type} (f : A -> B) (l : list A) :
  zip l (map f l) = map (fun x => (x, f x)) l.
Proof. induction l as [|x l IH]; simpl; [done|]. by rewrite IH. Qed.

Lemma enumerate_iterate (a : ndarray) (n : nat) (inner : list nat) :
  shape a = n :: inner ->
  enumerate (iterate a) = map (fun i => (i, item a i)) (seq 0 n).
Proof.
  intros Hshape. unfold enumerate, iterate. rewrite Hshape. simpl.
  rewrite List.length_map, List.length_seq. apply zip_map_r.
Qed.

Lemma shape_item (a : ndarray) (i : nat) : shape (item a i) = tail (shape a).
Proof. done. Qed.

Lemma flat_map_map {A B C : Type} (f : A -> B) (g : B -> list C) (l : list A) :
  flat_map g (map f l) = flat_map (fun x => g (f x)) l.
Proof. induction l as [|x l IH]; simpl; [done|]. by rewrite IH. Qed.

Lemma flat_map_ext_in {A B : Type} (f g : A -> list B) (l : list A) :
  (forall x, In x l -> f x = g x) -> flat_map f l = flat_map g l.
Proof.
  intros Hfg. rewrite !flat_map_concat_map. f_equal. by apply map_ext_in.
Qed.

Lemma flat_map_singleton {A B : Type} (f : A -> B) (l : list A) :
  flat_map (fun x => [f x]) l = map f l.
Proof. induction l as [|x l IH]; simpl; [done|]. by rewrite IH. Qed.

Lemma index_in_range (i n : nat) : (i < n)%nat -> index_in i (range n) = true.
Proof.
  intros Hi. unfold index_in, range. apply bool_decide_eq_true.
  apply list_elem_of_In, in_map, in_seq. lia.
Qed.

Lemma index_in_singleton (i m : nat) :
  index_in i [Z.of_nat m] = bool_decide (i = m).
Proof.
  unfold index_in. apply bool_decide_ext. rewrite list_elem_of_singleton. lia.
Qed.

Lemma flat_map_select_none {A : Type} (f : nat -> A) (m s n : nat) :
  (m < s)%nat ->
  flat_map (fun k => if bool_decide (k = m) then [f k] else []) (seq s n) = [].
Proof.
  revert s. induction n as [|n IH]; intros s Hm; simpl; [done|].
  rewrite bool_decide_false by lia. simpl. apply IH. lia.
Qed.

(** Selecting the one index [m] from an enumeration. *)
Lemma flat_map_select {A : Type} (f : nat -> A) (m s n : nat) :
  (s <= m < s + n)%nat ->
  flat_map (fun k => if bool_decide (k = m) then [f k] else []) (seq s n)
  = [f m].
Proof.
  revert s. induction n as [|n IH]; intros s Hm; simpl; [lia|].
  destruct (decide (s = m)) as [->|Hne].
  - rewrite bool_decide_true by done. simpl.
    by rewrite flat_map_select_none by lia.
  - rewrite bool_decide_false by done. simpl. apply IH. lia.
Qed.

Lemma length_flat_map_map {A B C : Type} (f : A -> B -> C) (la : list A)
    (lb : list B) :
  length (flat_map (fun a => map (f a) lb) la) = (length la * length lb)%nat.
Proof.
  apply flat_map_constant_length. intros a _. apply List.length_map.
Qed.

Lemma NoDup_flat_map_map {A B C : Type} (f : A -> B -> C) (la : list A)
    (lb : list B) :
  (forall a b a' b', f a b = f a' b' -> a = a' /\ b = b') ->
  NoDup la -> NoDup lb -> NoDup (flat_map (fun a => map (f a) lb) la).
Proof.
  intros Hinj Hla Hlb. induction Hla as [|a la Ha Hla IH]; simpl.
  { constructor. }
  apply NoDup_app. split; [|split; [|done]].
  - apply (NoDup_fmap_2_strong (f a)); [|done].
    intros b b' _ _ Heq. by destruct (Hinj _ _ _ _ Heq).
  - intros x Hx%list_elem_of_In%in_map_iff Hx'%list_elem_of_In%in_flat_map.
    destruct Hx as (b & <- & _). destruct Hx' as (a' & Ha' & Hb').
    apply in_map_iff in Hb' as (b' & Heq & _).
    destruct (Hinj _ _ _ _ Heq) as [-> _]. by apply Ha, list_elem_of_In.
Qed.

(** ** Extraction *)

Lemma image_tags_tagged {A B : Type} (g : A -> B -> TaggedImage) (la : list A)
    (lb : list B) :
  image_tags (flat_map (fun a => map (fun b => Tagged (g a b)) lb) la)
  = flat_map (fun a => map (fun b => TaggedImage.tag (g a b)) lb) la.
Proof.
  unfold image_tags. induction la as [|a la IH]; simpl; [done|].
  rewrite flat_map_app, IH. f_equal.
  rewrite flat_map_map. apply flat_map_singleton.
Qed.

(** The comprehension over an image batch when every index is selected. *)
Lemma image_comprehension_all (batch : ndarray) (N C : nat) (inner : list nat)
    (f : nat -> nat -> ndarray -> image_item) :
  shape batch = N :: C :: inner ->
  flat_map (fun '(instance_num, instance) =>
    flat_map (fun '(channel_num, image) =>
      if index_in instance_num (range N) && index_in channel_num (range C)
      then [f instance_num channel_num image]
      else [])
      (enumerate (iterate instance)))
    (enumerate (iterate batch))
  = flat_map (fun i => map (fun c => f i c (item (item batch i) c)) (seq 0 C))
      (seq 0 N).
Proof.
  intros Hshape. rewrite (enumerate_iterate batch N (C :: inner)) by done.
  rewrite flat_map_map. apply flat_map_ext_in. intros i Hi%in_seq.
  rewrite (enumerate_iterate (item batch i) C inner)
    by (by rewrite shape_item, Hshape).
  rewrite flat_map_map, <- flat_map_singleton.
  apply flat_map_ext_in. intros c Hc%in_seq.
  by rewrite !index_in_range by lia.
Qed.

(** C4: for an image batch of shape (N, C, H, W), with batch and channel
    selection 'all' and a base tag, [extract_images_from_batch] returns the
    N x C tagged images [batch[i][c]], instance by instance and channel by
    channel, each tagged with its instance and channel number, and no two of
    the tags are equal. *)
Theorem extract_images_image_batch_all (format : pyobj -> string)
    (config : Config) (t : Tensor) (N C H W : nat) (base_tag : string)
    (prefix : option string) :
  shape (numpy t) = [N; C; H; W] ->
  image_batch_indices config = SelStr "all" ->
  image_channel_indices config = SelStr "all" ->
  exists images : list image_item,
    extract_images_from_batch format config (PyTensor t) (Some base_tag) prefix
    = Ok images
    /\ images
       = flat_map (fun i =>
           map (fun c =>
             Tagged (_tag_image (item (item (numpy t) i) c) base_tag prefix
                       (Some i) (Some c) None))
             (seq 0 C))
           (seq 0 N)
    /\ length images = (N * C)%nat
    /\ NoDup (image_tags images).
Proof.
  intros Hshape Hbatch Hchannel. eexists. split; [|split; [reflexivity|split]].
  - simpl. unfold extract_images_from_tensor, is_image_tensor, is_volume_tensor,
      dim, ndim. rewrite Hshape, Hbatch, Hchannel. simpl.
    f_equal. by apply (image_comprehension_all (numpy t) N C [H; W]).
  - by rewrite length_flat_map_map, !List.length_seq.
  - rewrite (image_tags_tagged (fun i c =>
      _tag_image (item (item (numpy t) i) c) base_tag prefix (Some i) (Some c) None)).
    apply (NoDup_flat_map_map (fun i c => TaggedImage.tag
      (_tag_image (item (item (numpy t) i) c) base_tag prefix (Some i) (Some c) None)));
      [|apply NoDup_seq|apply NoDup_seq].
    intros i c i' c'. apply tag_image_inj.
Qed.

Lemma extract_images_image_batch_all_witness :
  exists images : list image_item,
    extract_images_from_batch (fun _ => "") (_config (init (mk_Trainer 0 0)))
      (PyTensor (zeros [2; 3; 1; 1]%nat)) (Some "inputs") None
    = Ok images
    /\ images
       = flat_map (fun i =>
           map (fun c =>
             Tagged (_tag_image (item (item (numpy (zeros [2; 3; 1; 1]%nat)) i) c)
                       "inputs" None (Some i) (Some c) None))
             (seq 0 3))
           (seq 0 2)
    /\ length images = (2 * 3)%nat
    /\ NoDup (image_tags images).
Proof.
  apply (extract_images_image_batch_all (fun _ => "")
           (_config (init (mk_Trainer 0 0))) (zeros [2; 3; 1; 1]%nat)
           2 3 1 1 "inputs" None); reflexivity.
Defined.

(** The comprehension over a volume batch when every instance and channel
    and the central slice are selected. *)
Lemma volume_comprehension_mid (batch : ndarray) (N C Z : nat)
    (inner : list nat) (f : nat -> nat -> nat -> ndarray -> image_item) :
  shape batch = N :: C :: Z :: inner ->
  (0 < Z)%nat ->
  flat_map (fun '(instance_num, instance) =>
    flat_map (fun '(channel_num, volume) =>
      flat_map (fun '(slice_num, image) =>
        if index_in instance_num (range N)
           && index_in channel_num (range C)
           && index_in slice_num [Z.of_nat (Z / 2)]
        then [f instance_num channel_num slice_num image]
        else [])
        (enumerate (iterate volume)))
      (enumerate (iterate instance)))
    (enumerate (iterate batch))
  = flat_map (fun i =>
      map (fun c => f i c (Z / 2)%nat (item (item (item batch i) c) (Z / 2)))
        (seq 0 C))
      (seq 0 N).
Proof.
  intros Hshape HZ.
  rewrite (enumerate_iterate batch N (C :: Z :: inner)) by done.
  rewrite flat_map_map. apply flat_map_ext_in. intros i Hi%in_seq.
  rewrite (enumerate_iterate (item batch i) C (Z :: inner))
    by (by rewrite shape_item, Hshape).
  rewrite flat_map_map, <- flat_map_singleton.
  apply flat_map_ext_in. intros c Hc%in_seq.
  rewrite (enumerate_iterate (item (item batch i) c) Z inner)
    by (by rewrite !shape_item, Hshape).
  rewrite flat_map_map.
  rewrite (flat_map_ext_in _ (fun k =>
    if bool_decide (k = Z / 2)%nat
    then [f i c k (item (item (item batch i) c) k)] else [])).
  2:{ intros k _. rewrite !index_in_range by lia. simpl.
      by rewrite index_in_singleton. }
  apply (flat_map_select (fun k => f i c k (item (item (item batch i) c) k))).
  split; [lia|]. rewrite Nat.add_0_l. apply Nat.div_lt; lia.
Qed.

(** C5, as amended: for a volume batch of shape (N, C, Z, H, W) with at least
    one z slice, with z selection 'mid' and batch and channel selection
    'all', and a prefix passed only together with a base tag,
    [extract_images_from_batch] returns exactly N x C images, the slices
    [batch[i][c][Z // 2]] instance by instance and channel by channel. *)
Theorem extract_images_volume_batch_mid (format : pyobj -> string)
    (config : Config) (t : Tensor) (N C Z H W : nat)
    (base_tag prefix : option string) :
  shape (numpy t) = [N; C; Z; H; W] ->
  (0 < Z)%nat ->
  image_batch_indices config = SelStr "all" ->
  image_channel_indices config = SelStr "all" ->
  volume_z_indices config = SelStr "mid" ->
  check_prefix base_tag prefix = Ok tt ->
  exists images : list image_item,
    extract_images_from_batch format config (PyTensor t) base_tag prefix
    = Ok images
    /\ images
       = flat_map (fun i =>
           map (fun c =>
             emit base_tag prefix (item (item (item (numpy t) i) c) (Z / 2))
               (Some i) (Some c) (Some (Z / 2)%nat))
             (seq 0 C))
           (seq 0 N)
    /\ length images = (N * C)%nat.
Proof.
  intros Hshape HZ Hbatch Hchannel Hz Hprefix.
  eexists. split; [|split; [reflexivity|]].
  - simpl. rewrite Hprefix. simpl.
    unfold extract_images_from_tensor, is_image_tensor, is_volume_tensor,
      dim, ndim. rewrite Hshape, Hbatch, Hchannel, Hz. simpl.
    f_equal.
    by apply (volume_comprehension_mid (numpy t) N C Z [H; W]
                (fun i c k image => emit base_tag prefix image
                                      (Some i) (Some c) (Some k))).
  - by rewrite length_flat_map_map, !List.length_seq.
Qed.

Lemma extract_images_volume_batch_mid_witness :
  exists images : list image_item,
    extract_images_from_batch (fun _ => "") (_config (init (mk_Trainer 0 0)))
      (PyTensor (zeros [2; 1; 3; 1; 1]%nat)) (Some "prediction") None
    = Ok images
    /\ images
       = flat_map (fun i =>
           map (fun c =>
             emit (Some "prediction") None
               (item (item (item (numpy (zeros [2; 1; 3; 1; 1]%nat)) i) c) (3 / 2))
               (Some i) (Some c) (Some (3 / 2)%nat))
             (seq 0 1))
           (seq 0 2)
    /\ length images = (2 * 1)%nat.
Proof.
  apply (extract_images_volume_batch_mid (fun _ => "")
           (_config (init (mk_Trainer 0 0))) (zeros [2; 1; 3; 1; 1]%nat)
           2 1 3 1 1 (Some "prediction") None); try reflexivity.
  lia.
Defined.

(** C5, counterexample: a volume batch of shape (1, 1, 0, 1, 1) has no z
    slice; 'mid' resolves to the index 0, no slice carries it, and the list
    returned is empty although N x C = 1. The tensor path formats no value,
    so the text chosen for [format] is immaterial. *)
Lemma extract_images_volume_batch_no_slice :
  well_formed (numpy (zeros [1; 1; 0; 1; 1]%nat))
  /\ extract_images_from_batch (fun _ => "") (_config (init (mk_Trainer 0 0)))
       (PyTensor (zeros [1; 1; 0; 1; 1]%nat)) (Some "prediction") None
     = Ok []
  /\ length (@nil image_item) <> (1 * 1)%nat.
Proof. repeat split. simpl. lia. Qed.

(** C3: on the code, a list or tuple of batch tensors is not extracted batch
    by batch. The loop unpacks every item into [batch_num, _batch] instead of
    enumerating the items, so a first item that is an image or volume batch
    with a number of samples other than two raises [ValueError]. *)
Theorem extract_images_list_of_tensors_raises (format : pyobj -> string)
    (config : Config) (t : Tensor) (rest : list pyobj)
    (base_tag prefix : option string) :
  check_prefix base_tag prefix = Ok tt ->
  is_image_or_volume_tensor (PyTensor t) = true ->
  nth 0 (shape (numpy t)) 0%nat <> 2%nat ->
  extract_images_from_batch format config (PyList (PyTensor t :: rest))
    base_tag prefix = Raise ValueError
  /\ extract_images_from_batch format config (PyTuple (PyTensor t :: rest))
       base_tag prefix = Raise ValueError.
Proof.
  intros Hprefix Htensor Hn. simpl. rewrite Hprefix. simpl.
  unfold is_image_or_volume_tensor, is_image_tensor, is_volume_tensor, dim,
    ndim in Htensor.
  destruct (shape (numpy t)) as [|n inner]; [done|]. simpl in Hn.
  destruct (Nat.eqb_spec n 2) as [->|_]; done.
Qed.

Lemma extract_images_list_of_tensors_raises_witness :
  extract_images_from_batch (fun _ => "") (_config (init (mk_Trainer 0 0)))
    (PyList [PyTensor (zeros [1; 1; 1; 1]%nat)]) (Some "inputs") None
  = Raise ValueError
  /\ extract_images_from_batch (fun _ => "") (_config (init (mk_Trainer 0 0)))
       (PyTuple [PyTensor (zeros [1; 1; 1; 1]%nat)]) (Some "inputs") None
     = Raise ValueError.
Proof.
  apply (extract_images_list_of_tensors_raises (fun _ => "")
           (_config (init (mk_Trainer 0 0))) (zeros [1; 1; 1; 1]%nat) []
           (Some "inputs") None); [reflexivity|reflexivity|].
  simpl. lia.
Defined.

(** A list holding a batch of exactly two images: the item unpacks into its
    two samples, and the second one, being 3-d, is neither an image nor a
    volume batch. *)
Lemma extract_images_list_of_pair_batch_raises (format : pyobj -> string)
    (config : Config) (t : Tensor) (rest : list pyobj) (C H W : nat)
    (base_tag : string) (prefix : option string) :
  shape (numpy t) = [2; C; H; W]%nat ->
  extract_images_from_batch format config (PyList (PyTensor t :: rest))
    (Some base_tag) prefix = Raise AssertionError.
Proof.
  intros Hshape. simpl. rewrite Hshape. simpl.
  unfold extract_images_from_leaf, extract_images_from_tensor,
    is_image_tensor, is_volume_tensor, dim, ndim. simpl.
  by rewrite Hshape.
Qed.

(** ** Dispatch of scalars *)

Lemma log_scalar_wrote (tag : string) (value : Qc) (step : Z)
    (self : TensorboardLogger) :
  exists self' : TensorboardLogger,
    log_scalar tag value step self = (Ok tt, self')
    /\ wrote [add_scalar tag value step] self self'.
Proof. eexists. split; [reflexivity|]. by repeat split. Qed.

(** *** [float] of an [int] *)

Lemma round_half_even_exact (n : Z) :
  (0 <= n <= 2 ^ 53)%Z -> round_half_even n = n.
Proof.
  intros Hn. unfold round_half_even, DBL_MANT_DIG.
  destruct (Z.leb_spec (Z.log2 n + 1 - 53) 0) as [|Hdrop]; [done|].
  assert (n = 2 ^ 53)%Z as ->.
  { assert (53 <= Z.log2 n)%Z as Hlog by lia.
    apply Z.log2_le_pow2 in Hlog; [lia|].
    destruct n; simpl in Hlog; lia. }
  vm_compute. reflexivity.
Qed.

(** The bits kept ([q], 53 of them) and the bits dropped ([r]) when some are
    dropped. *)
Lemma round_half_even_split (n : Z) :
  let dropped := (Z.log2 n + 1 - 53)%Z in
  (0 < dropped)%Z ->
  exists q r : Z,
    (n = q * 2 ^ dropped + r
     /\ 0 <= r < 2 ^ dropped
     /\ 2 ^ 52 <= q < 2 ^ 53
     /\ 2 ^ dropped = 2 * 2 ^ (dropped - 1))%Z
    /\ round_half_even n
       = ((if (2 ^ (dropped - 1) <? r) || ((r =? 2 ^ (dropped - 1)) && Z.odd q)
           then q + 1 else q) * 2 ^ dropped)%Z.
Proof.
  intros dropped Hdrop.
  assert (0 < n)%Z as Hpos.
  { destruct n; try lia; unfold dropped in Hdrop; simpl in Hdrop; lia. }
  destruct (Z.log2_spec n Hpos) as [Hlo Hhi].
  exists (n / 2 ^ dropped)%Z, (n mod 2 ^ dropped)%Z.
  assert (0 < 2 ^ dropped)%Z as HP by (apply Z.pow_pos_nonneg; lia).
  replace (Z.succ (Z.log2 n)) with (53 + dropped)%Z in Hhi
    by (unfold dropped; lia).
  replace (Z.log2 n) with (52 + dropped)%Z in Hlo by (unfold dropped; lia).
  rewrite Z.pow_add_r in Hlo, Hhi by lia.
  split; [split; [|split; [|split]]|].
  - rewrite Z.mul_comm. apply Z.div_mod. lia.
  - apply Z.mod_pos_bound. lia.
  - split.
    + apply Z.div_le_lower_bound; lia.
    + apply Z.div_lt_upper_bound; lia.
  - replace dropped with (1 + (dropped - 1))%Z at 1 by lia.
    rewrite Z.pow_add_r by lia. reflexivity.
  - unfold round_half_even, DBL_MANT_DIG. fold dropped.
    destruct (Z.leb_spec dropped 0) as [|_]; [lia|].
    rewrite Z.shiftl_mul_pow2, Z.shiftr_div_pow2, Z.land_ones by lia.
    rewrite Z.shiftl_mul_pow2, Z.mul_1_l by lia. reflexivity.
Qed.

(** Rounding reaches 2^1024 from 2^1024 - 2^970 on: the midpoint between the
    largest float, (2^53 - 1) * 2^971, and 2^1024. *)
Lemma round_half_even_overflow (n : Z) :
  (0 <= n)%Z ->
  (2 ^ 1024 <= round_half_even n <-> 2 ^ 1024 - 2 ^ 970 <= n)%Z.
Proof.
  intros Hn.
  destruct (Z.leb_spec (Z.log2 n + 1 - 53) 0) as [Hdrop|Hdrop].
  { (* no bit is dropped *)
    assert (n < 2 ^ 53)%Z as Hsmall.
    { destruct (Z.eq_dec n 0%Z) as [->|Hne]; [reflexivity|].
      destruct (Z.log2_spec n) as [_ Hhi]; [lia|].
      eapply Z.lt_le_trans; [exact Hhi|]. apply Z.pow_le_mono_r; lia. }
    rewrite round_half_even_exact by lia.
    assert (2 ^ 53 < 2 ^ 1024 - 2 ^ 970)%Z by reflexivity.
    assert (2 ^ 53 < 2 ^ 1024)%Z by reflexivity. lia. }
  destruct (round_half_even_split n Hdrop)
    as (q & r & (Hsplit & Hr & Hq & Hhalf) & ->).
  set (dropped := (Z.log2 n + 1 - 53)%Z) in *.
  match goal with
  | |- context [if ?b then _ else _] =>
      set (up := b); set (q' := if up then (q + 1)%Z else q)
  end.
  assert (up = true
          <-> (2 ^ (dropped - 1) < r)%Z
              \/ (r = 2 ^ (dropped - 1))%Z /\ Z.odd q = true) as Hup.
  { unfold up. rewrite orb_true_iff, andb_true_iff, Z.ltb_lt, Z.eqb_eq. tauto. }
  assert (q' = if up then q + 1 else q)%Z as Hq' by reflexivity.
  clearbody q' up.
  assert (0 < 2 ^ (dropped - 1))%Z as Hhalf_pos by (apply Z.pow_pos_nonneg; lia).
  change (2 ^ 53)%Z with 9007199254740992%Z in Hq.
  change (2 ^ 52)%Z with 4503599627370496%Z in Hq.
  destruct (Z.lt_trichotomy dropped 971) as [Hlt | [Heq | Hgt]].
  - (* at most 1023 bits: no overflow *)
    assert (2 ^ dropped <= 2 ^ 970)%Z as HB by (apply Z.pow_le_mono_r; lia).
    replace (2 ^ 1024)%Z with (18014398509481984 * 2 ^ 970)%Z by reflexivity.
    remember (2 ^ 970)%Z as B eqn:EB. remember (2 ^ dropped)%Z as P eqn:EP.
    clear EB EP Hup.
    assert (q' * P <= 9007199254740992 * P)%Z
      by (apply Z.mul_le_mono_nonneg_r; destruct up; lia).
    assert (q * P <= 9007199254740991 * P)%Z
      by (apply Z.mul_le_mono_nonneg_r; lia).
    lia.
  - (* 1024 bits: overflow when the result is rounded up to 2^1024 *)
    rewrite Heq in *. change (971 - 1)%Z with 970%Z in *.
    replace (2 ^ 1024)%Z with (9007199254740992 * (2 * 2 ^ 970))%Z
      by reflexivity.
    replace (2 ^ 971)%Z with (2 * 2 ^ 970)%Z in * by reflexivity.
    assert (q = 9007199254740991%Z -> Z.odd q = true) as Hodd by (by intros ->).
    remember (2 ^ 970)%Z as B eqn:EB. clear EB.
    destruct (Z.eq_dec q 9007199254740991%Z) as [Emax|Hless].
    + specialize (Hodd Emax). subst q.
      destruct up; subst q'.
      * assert (B <= r)%Z by (destruct Hup as [[|[]] _]; try done; lia). lia.
      * assert (r < B)%Z.
        { destruct (Z.lt_ge_cases r B) as [|Hge]; [done|].
          destruct Hup as [_ Hup]. discriminate Hup.
          destruct (Z.eq_dec r B); [by right|left; lia]. }
        lia.
    + assert (q' * (2 * B) <= 9007199254740991 * (2 * B))%Z
        by (apply Z.mul_le_mono_nonneg_r; destruct up; lia).
      assert (q * (2 * B) <= 9007199254740990 * (2 * B))%Z
        by (apply Z.mul_le_mono_nonneg_r; lia).
      lia.
  - (* more than 1024 bits: overflow *)
    assert (2 ^ 972 <= 2 ^ dropped)%Z as HB by (apply Z.pow_le_mono_r; lia).
    replace (2 ^ 1024)%Z with (4503599627370496 * 2 ^ 972)%Z by reflexivity.
    assert (0 < 2 ^ 970)%Z by reflexivity.
    assert (0 < 2 ^ 972)%Z by reflexivity.
    remember (2 ^ 970)%Z as B eqn:EB. remember (2 ^ dropped)%Z as P eqn:EP.
    remember (2 ^ 972)%Z as C eqn:EC.
    clear EB EP EC Hup.
    assert (4503599627370496 * C <= q * P)%Z
      by (apply Z.mul_le_mono_nonneg; lia).
    assert (q * P <= q' * P)%Z
      by (apply Z.mul_le_mono_nonneg_r; destruct up; lia).
    split; lia.
Qed.

(** [float(z)] raises exactly from the magnitude 2^1024 - 2^970 on. *)
Lemma float_of_int_overflow (z : Z) :
  float_of_int z = Raise OverflowError <-> (2 ^ 1024 - 2 ^ 970 <= Z.abs z)%Z.
Proof.
  unfold float_of_int, DBL_MAX_EXP.
  rewrite <- round_half_even_overflow by lia.
  destruct (Z.leb_spec (2 ^ 1024) (round_half_even (Z.abs z))); split;
    try done; lia.
Qed.

Lemma float_of_int_in_range (z : Z) :
  (Z.abs z < 2 ^ 1024 - 2 ^ 970)%Z ->
  float_of_int z = Ok (Qc_of_Z (Z.sgn z * round_half_even (Z.abs z))).
Proof.
  intros Hz.
  destruct (float_of_int z) as [v|e] eqn:Hrun.
  - unfold float_of_int in Hrun.
    destruct (2 ^ DBL_MAX_EXP <=? round_half_even (Z.abs z))%Z; [done|].
    by injection Hrun as <-.
  - assert (e = OverflowError) as ->.
    { unfold float_of_int in Hrun.
      destruct (2 ^ DBL_MAX_EXP <=? round_half_even (Z.abs z))%Z; [|done].
      by injection Hrun as <-. }
    apply float_of_int_overflow in Hrun. lia.
Qed.

(** An int of at most 53 bits is converted exactly. *)
Lemma float_of_int_exact (z : Z) :
  (Z.abs z <= 2 ^ 53)%Z -> float_of_int z = Ok (Qc_of_Z z).
Proof.
  intros Hz. rewrite float_of_int_in_range.
  - rewrite round_half_even_exact by lia. do 2 f_equal. lia.
  - assert (2 ^ 53 < 2 ^ 1024 - 2 ^ 970)%Z by reflexivity. lia.
Qed.

(** The rounding at work: a tie goes to the neighbour with an even last bit,
    10^23 becomes the float Python prints as 1e+23, and the largest int
    that is converted becomes the largest float. *)
Lemma round_half_even_examples :
  round_half_even (2 ^ 53 + 1) = (2 ^ 53)%Z
  /\ round_half_even (2 ^ 53 + 3) = (2 ^ 53 + 4)%Z
  /\ round_half_even (10 ^ 23) = 99999999999999991611392%Z
  /\ round_half_even (2 ^ 1024 - 2 ^ 970 - 1) = ((2 ^ 53 - 1) * 2 ^ 971)%Z.
Proof. repeat split; vm_compute; reflexivity. Qed.

(** An int that [float] converts is logged as the float. *)
Lemma log_object_int (format : pyobj -> string) (tag : string) (z : Z)
    (value : Qc) (allow_image_logging allow_histogram_logging : bool)
    (self : TensorboardLogger) :
  float_of_int z = Ok value ->
  log_object format tag (PyInt z) true allow_image_logging
    allow_histogram_logging self
  = log_scalar tag value (iteration_count (trainer self)) self.
Proof.
  intros Hfloat.
  change (log_object format tag (PyInt z) true allow_image_logging
            allow_histogram_logging)
    with (log_object_leaf format tag (PyInt z) true allow_image_logging
            allow_histogram_logging).
  unfold log_object_leaf. cbv [mbind Method_bind read lift].
  by rewrite Hfloat.
Qed.

(** C6: for a scalar (a 0-dimensional tensor, a float, or an int that [float]
    converts: one of magnitude below 2^1024 - 2^970, see
    [float_of_int_overflow]) and any tag, [log_object] with scalar logging
    allowed returns after exactly one call of the writer: [add_scalar] with
    that tag, the scalar as a float and the trainer's iteration count as
    step; nothing else of the logger changes. *)
Theorem log_object_scalar (format : pyobj -> string) (tag : string)
    (object_ : pyobj) (value : Qc)
    (allow_image_logging allow_histogram_logging : bool)
    (self : TensorboardLogger) :
  scalar_value object_ value ->
  exists self' : TensorboardLogger,
    log_object format tag object_ true allow_image_logging
      allow_histogram_logging self
    = (Ok tt, self')
    /\ wrote [add_scalar tag value (iteration_count (trainer self))] self self'.
Proof.
  intros [dt v|x|z v Hfloat]; [apply log_scalar_wrote..|].
  rewrite (log_object_int format tag z v) by done.
  apply log_scalar_wrote.
Qed.

Lemma log_object_scalar_witness :
  exists self' : TensorboardLogger,
    log_object (fun _ => "") "training_loss" (PyInt (2 ^ 53 + 1))
      true true true (init (mk_Trainer 5 0))
    = (Ok tt, self')
    /\ wrote [add_scalar "training_loss" (Qc_of_Z (2 ^ 53))
                (iteration_count (trainer (init (mk_Trainer 5 0))))]
         (init (mk_Trainer 5 0)) self'.
Proof.
  apply (log_object_scalar (fun _ => "") "training_loss"
           (PyInt (2 ^ 53 + 1)) (Qc_of_Z (2 ^ 53)) true true
           (init (mk_Trainer 5 0))).
  apply scalar_int. reflexivity.
Defined.

(** C6, counterexample: the int 10^400 is a plain number, a scalar of
    section 4.3, but it is beyond the range of the floats: [log_object]
    raises the [OverflowError] of [float] and the writer, which has received
    no call before, receives none. *)
Lemma log_object_scalar_int_overflow :
  log_object (fun _ => "") "training_loss" (PyInt (10 ^ 400))
    true true true (init (mk_Trainer 5 0))
  = (Raise OverflowError, init (mk_Trainer 5 0))
  /\ writes (init (mk_Trainer 5 0)) = [].
Proof. split; reflexivity. Qed.

(** * Further properties *)

(** ** Sequencing of methods *)

Lemma bind_ok {A B : Type} (m : Method A) (f : A -> Method B) (a : A)
    (self self' : TensorboardLogger) :
  m self = (Ok a, self') -> (m ≫= f) self = f a self'.
Proof. intros H. unfold mbind, Method_bind. by rewrite H. Qed.

Lemma bind_raise {A B : Type} (m : Method A) (f : A -> Method B) (e : exn)
    (self self' : TensorboardLogger) :
  m self = (Raise e, self') -> (m ≫= f) self = (Raise e, self').
Proof. intros H. unfold mbind, Method_bind. by rewrite H. Qed.

(** ** Registry *)

(** Equality of two sets of keys by membership. *)
Ltac set_ext :=
  try apply leibniz_equiv; intros ?x;
  repeat (rewrite elem_of_difference || rewrite elem_of_union
          || rewrite elem_of_list_to_set || rewrite elem_of_cons
          || rewrite elem_of_nil || rewrite elem_of_singleton
          || rewrite elem_of_empty);
  tauto.

Lemma set_training_compose (f g : gset string -> gset string)
    (self : TensorboardLogger) :
  set_training f (set_training g self) = set_training (fun s => f (g s)) self.
Proof. done. Qed.

Lemma set_validating_compose (f g : gset string -> gset string)
    (self : TensorboardLogger) :
  set_validating f (set_validating g self)
  = set_validating (fun s => f (g s)) self.
Proof. done. Qed.

Lemma set_training_ext (f g : gset string -> gset string)
    (self : TensorboardLogger) :
  f (_trainer_states_being_observed_while_training self)
  = g (_trainer_states_being_observed_while_training self) ->
  set_training f self = set_training g self.
Proof. intros H. unfold set_training. by rewrite H. Qed.

Lemma set_validating_ext (f g : gset string -> gset string)
    (self : TensorboardLogger) :
  f (_trainer_states_being_observed_while_validating self)
  = g (_trainer_states_being_observed_while_validating self) ->
  set_validating f self = set_validating g self.
Proof. intros H. unfold set_validating. by rewrite H. Qed.

Lemma with_observed_compose (observe_while : string)
    (f g : gset string -> gset string) (self : TensorboardLogger) :
  with_observed observe_while f (with_observed observe_while g self)
  = with_observed observe_while (fun s => f (g s)) self.
Proof. unfold with_observed. by case_bool_decide. Qed.

Lemma with_observed_ext (observe_while : string)
    (f g : gset string -> gset string) (self : TensorboardLogger) :
  (forall s, f s = g s) ->
  with_observed observe_while f self = with_observed observe_while g self.
Proof.
  intros H. unfold with_observed.
  case_bool_decide; [apply set_training_ext|apply set_validating_ext]; apply H.
Qed.

Lemma with_observed_id (observe_while : string) (f : gset string -> gset string)
    (self : TensorboardLogger) :
  (forall s, f s = s) -> with_observed observe_while f self = self.
Proof.
  intros H. unfold with_observed, set_training, set_validating.
  destruct self; case_bool_decide; simpl; by rewrite H.
Qed.

(** One successful [observe_state]. *)
Lemma observe_state_ok (key observe_while : string) (self : TensorboardLogger) :
  PyStr observe_while ∈ phase_tokens ->
  observe_state (PyStr key) (PyStr observe_while) self
  = (Ok tt, with_observed observe_while (fun s => {[ key ]} ∪ s) self).
Proof.
  intros Hin. unfold phase_tokens in Hin.
  rewrite !elem_of_cons, elem_of_nil in Hin.
  destruct Hin as [[= ->] | [[= ->] | [[= ->] | [[= ->] | []]]]]; reflexivity.
Qed.

(** X1: observing is idempotent, whether it succeeds or raises: a second
    [observe_state] with the same arguments, made on the logger the first
    call left behind, has the outcome of the first call (it returns if the
    first returned, and raises the same exception if the first raised) and
    leaves that logger as it is. *)
Theorem observe_state_idempotent (key observe_while : pyobj)
    (self : TensorboardLogger) :
  observe_state key observe_while (snd (observe_state key observe_while self))
  = observe_state key observe_while self.
Proof.
  destruct (observe_state key observe_while self) as [outcome self'] eqn:Hrun.
  simpl. unfold observe_state, mbind, Method_bind, lift, update in Hrun |- *.
  destruct (keyword_mapping_get_cases observe_while) as [E | [E | [E | E]]];
    rewrite E in Hrun |- *; simpl in Hrun |- *.
  1,2: by injection Hrun as <- <-.
  all: destruct (isinstance_str key) eqn:Hkey; simpl in Hrun |- *;
    injection Hrun as <- <-; [|done]; f_equal;
    rewrite ?set_training_compose, ?set_validating_compose;
    first [apply set_training_ext|apply set_validating_ext];
    destruct key; try discriminate; simpl; apply leibniz_equiv;
    intros x; rewrite !elem_of_union; tauto.
Qed.

Lemma observe_states_ok (keys : list string) (observe_while : string)
    (self : TensorboardLogger) :
  PyStr observe_while ∈ phase_tokens ->
  observe_states (map PyStr keys) (PyStr observe_while) self
  = (Ok tt, with_observed observe_while (fun s => list_to_set keys ∪ s) self).
Proof.
  intros Hin. revert self. induction keys as [|key keys IH]; intros self.
  - simpl. unfold mret, Method_ret. f_equal. symmetry.
    apply with_observed_id. intros s. set_ext.
  - simpl. rewrite (bind_ok _ _ _ _ _ (observe_state_ok key _ self Hin)).
    rewrite IH, with_observed_compose. f_equal.
    apply with_observed_ext. intros s. set_ext.
Qed.

(** X2: [observe_states] with string keys and a phase token that
    [observe_state] accepts adds every key to the registry of that phase and
    changes nothing else. *)
Theorem observe_states_adds_all (keys : list string) (observe_while : string)
    (self : TensorboardLogger) :
  PyStr observe_while ∈ phase_tokens ->
  observe_states (map PyStr keys) (PyStr observe_while) self
  = (Ok tt, with_observed observe_while (fun s => list_to_set keys ∪ s) self).
Proof.
  intros Htoken. revert self. induction keys as [|key keys IH]; intros self.
  - simpl. unfold mret, Method_ret. f_equal. symmetry.
    apply with_observed_id. intros s. set_ext.
  - simpl. rewrite (bind_ok _ _ _ _ _ (observe_state_ok key _ self Htoken)).
    rewrite IH, with_observed_compose. f_equal.
    apply with_observed_ext. intros s. set_ext.
Qed.

Lemma observe_states_adds_all_witness :
  observe_states (map PyStr ["gradient_norm"; "weight_norm"]) (PyStr "train")
    (init (mk_Trainer 0 0))
  = (Ok tt, with_observed "train"
              (fun s => list_to_set ["gradient_norm"; "weight_norm"] ∪ s)
              (init (mk_Trainer 0 0))).
Proof.
  apply (observe_states_adds_all ["gradient_norm"; "weight_norm"] "train"
           (init (mk_Trainer 0 0))).
  unfold phase_tokens. rewrite !elem_of_cons. right. left. reflexivity.
Defined.

(** X3: [observe_states] is not atomic: when a key is not a string, the call
    raises [TypeError] and the keys that came before it stay observed. *)
Theorem observe_states_keeps_earlier_keys (keys : list string) (bad : pyobj)
    (rest : list pyobj) (observe_while : string) (self : TensorboardLogger) :
  PyStr observe_while ∈ phase_tokens ->
  isinstance_str bad = false ->
  observe_states (map PyStr keys ++ bad :: rest) (PyStr observe_while) self
  = (Raise TypeError,
     with_observed observe_while (fun s => list_to_set keys ∪ s) self).
Proof.
  intros Hin Hbad. revert self. induction keys as [|key keys IH]; intros self.
  - simpl. rewrite (bind_raise _ _ TypeError self self).
    2:{ by apply observe_state_invalid_key. }
    f_equal. symmetry. apply with_observed_id. intros s. set_ext.
  - simpl. rewrite (bind_ok _ _ _ _ _ (observe_state_ok key _ self Hin)).
    rewrite IH, with_observed_compose. f_equal.
    apply with_observed_ext. intros s. set_ext.
Qed.

Lemma observe_states_keeps_earlier_keys_witness :
  observe_states (map PyStr ["gradient_norm"] ++ PyInt 3 :: [PyStr "lr"])
    (PyStr "validating") (init (mk_Trainer 0 0))
  = (Raise TypeError,
     with_observed "validating" (fun s => list_to_set ["gradient_norm"] ∪ s)
       (init (mk_Trainer 0 0))).
Proof.
  apply (observe_states_keeps_earlier_keys ["gradient_norm"] (PyInt 3)
           [PyStr "lr"] "validating" (init (mk_Trainer 0 0))).
  - unfold phase_tokens. rewrite !elem_of_cons. right. right. left. reflexivity.
  - reflexivity.
Defined.

(** One successful [unobserve_state]. *)
Lemma unobserve_state_ok (key observe_while : string)
    (self : TensorboardLogger) :
  observe_while ∈ ["training"; "validating"] ->
  key ∈ states_observed_while observe_while self ->
  unobserve_state (PyStr key) (PyStr observe_while) self
  = (Ok tt, with_observed observe_while (fun s => s ∖ {[ key ]}) self).
Proof.
  intros Hphase Hkey. rewrite !elem_of_cons, elem_of_nil in Hphase.
  destruct Hphase as [-> | [-> | []]]; unfold states_observed_while in Hkey;
    simpl in Hkey;
    cbv [mbind Method_bind unobserve_state lift read update py_eq_str];
    simpl; unfold set_remove; simpl;
    by rewrite bool_decide_true.
Qed.

Lemma states_observed_while_with_observed (observe_while : string)
    (f : gset string -> gset string) (self : TensorboardLogger) :
  observe_while ∈ ["training"; "validating"] ->
  states_observed_while observe_while (with_observed observe_while f self)
  = f (states_observed_while observe_while self).
Proof.
  intros Hphase. rewrite !elem_of_cons, elem_of_nil in Hphase.
  by destruct Hphase as [-> | [-> | []]].
Qed.

Lemma unobserve_states_ok (keys : list string) (observe_while : string)
    (self : TensorboardLogger) :
  observe_while ∈ ["training"; "validating"] ->
  NoDup keys ->
  (forall key, key ∈ keys -> key ∈ states_observed_while observe_while self) ->
  unobserve_states (map PyStr keys) (PyStr observe_while) self
  = (Ok tt, with_observed observe_while (fun s => s ∖ list_to_set keys) self).
Proof.
  intros Hphase Hnodup. revert self.
  induction Hnodup as [|key keys Hfresh Hnodup IH]; intros self Hmem.
  - simpl. unfold mret, Method_ret. f_equal. symmetry.
    apply with_observed_id. intros s. set_ext.
  - assert (key ∈ states_observed_while observe_while self) as Hkey.
    { apply Hmem. by left. }
    simpl.
    rewrite (bind_ok _ _ _ _ _ (unobserve_state_ok key _ self Hphase Hkey)).
    rewrite IH.
    + rewrite with_observed_compose. f_equal.
      apply with_observed_ext. intros s. set_ext.
    + intros k Hk. rewrite states_observed_while_with_observed by done.
      rewrite elem_of_difference, elem_of_singleton. split.
      * apply Hmem. by right.
      * intros ->. by apply Hfresh.
Qed.

(** X5: [unobserve_states] removes the keys one after the other: distinct
    keys that the registry holds are all removed; when the next key is absent
    from what is left (it never was observed, or it occurred before in the
    list), the call raises [KeyError] and the keys before it are gone. *)
Theorem unobserve_states_removes (keys : list string) (observe_while : string)
    (self : TensorboardLogger) :
  observe_while ∈ ["training"; "validating"] ->
  NoDup keys ->
  (forall key, key ∈ keys -> key ∈ states_observed_while observe_while self) ->
  unobserve_states (map PyStr keys) (PyStr observe_while) self
  = (Ok tt, with_observed observe_while (fun s => s ∖ list_to_set keys) self)
  /\ forall (key : string) (rest : list pyobj),
       key ∉ states_observed_while observe_while self ∖ list_to_set keys ->
       unobserve_states (map PyStr keys ++ PyStr key :: rest)
         (PyStr observe_while) self
       = (Raise KeyError,
          with_observed observe_while (fun s => s ∖ list_to_set keys) self).
Proof.
  intros Hphase Hnodup. revert self.
  induction Hnodup as [|key keys Hfresh Hnodup IH]; intros self Hmem.
  - assert (with_observed observe_while
              (fun s => s ∖ list_to_set (@nil string)) self = self) as ->.
    { apply with_observed_id. intros s. set_ext. }
    split; [done|]. intros key rest Habsent. simpl.
    apply bind_raise. apply unobserve_state_absent_key; [done|].
    intros Hin. apply Habsent. revert Hin. generalize key. set_ext.
  - assert (key ∈ states_observed_while observe_while self) as Hkey.
    { apply Hmem. by left. }
    pose proof (unobserve_state_ok key observe_while self Hphase Hkey) as Hrun.
    set (self1 := with_observed observe_while (fun s => s ∖ {[ key ]}) self)
      in *.
    assert (forall k, k ∈ keys -> k ∈ states_observed_while observe_while self1)
      as Hmem1.
    { intros k Hk. unfold self1.
      rewrite states_observed_while_with_observed by done.
      rewrite elem_of_difference, elem_of_singleton. split.
      - apply Hmem. by right.
      - intros ->. by apply Hfresh. }
    destruct (IH self1 Hmem1) as [IHok IHfail].
    assert (with_observed observe_while (fun s => s ∖ list_to_set keys) self1
            = with_observed observe_while
                (fun s => s ∖ list_to_set (key :: keys)) self) as Heq.
    { unfold self1. rewrite with_observed_compose.
      apply with_observed_ext. intros s. set_ext. }
    split.
    + simpl. rewrite (bind_ok _ _ _ _ _ Hrun). by rewrite IHok, Heq.
    + intros k rest Habsent. simpl. rewrite (bind_ok _ _ _ _ _ Hrun).
      rewrite IHfail, Heq; [done|].
      unfold self1. rewrite states_observed_while_with_observed by done.
      intros Hin. apply Habsent. revert Hin. generalize k. set_ext.
Qed.

Lemma unobserve_states_removes_witness :
  unobserve_states (map PyStr ["training_loss"; "learning_rate"])
    (PyStr "training") (init (mk_Trainer 0 0))
  = (Ok tt,
     with_observed "training"
       (fun s => s ∖ list_to_set ["training_loss"; "learning_rate"])
       (init (mk_Trainer 0 0)))
  /\ forall (key : string) (rest : list pyobj),
       key ∉ states_observed_while "training" (init (mk_Trainer 0 0))
             ∖ list_to_set ["training_loss"; "learning_rate"] ->
       unobserve_states
         (map PyStr ["training_loss"; "learning_rate"] ++ PyStr key :: rest)
         (PyStr "training") (init (mk_Trainer 0 0))
       = (Raise KeyError,
          with_observed "training"
            (fun s => s ∖ list_to_set ["training_loss"; "learning_rate"])
            (init (mk_Trainer 0 0))).
Proof.
  apply (unobserve_states_removes ["training_loss"; "learning_rate"]
           "training" (init (mk_Trainer 0 0))).
  - rewrite !elem_of_cons. left. reflexivity.
  - apply NoDup_cons. split.
    + rewrite elem_of_cons, elem_of_nil. intros [H | []]. discriminate H.
    + apply NoDup_cons. split; [apply not_elem_of_nil | apply NoDup_nil_2].
  - intros key Hkey. rewrite !elem_of_cons, elem_of_nil in Hkey.
    destruct Hkey as [-> | [-> | []]]; vm_compute; reflexivity.
Defined.

(** X4: unobserving a key that the registry of the phase does not hold fails
    and changes nothing: [KeyError], or [TypeError] when the key cannot be
    hashed. Nothing is ignored silently. *)
Theorem unobserve_state_missing_key (key : pyobj) (observe_while : string)
    (self : TensorboardLogger) :
  observe_while ∈ ["training"; "validating"] ->
  (forall k, key = PyStr k -> k ∉ states_observed_while observe_while self) ->
  unobserve_state key (PyStr observe_while) self
  = (Raise (if hashable key then KeyError else TypeError), self).
Proof.
  intros Hphase Hkey. rewrite !elem_of_cons, elem_of_nil in Hphase.
  destruct Hphase as [-> | [-> | []]];
    cbv [mbind Method_bind unobserve_state lift read update py_eq_str];
    simpl; unfold set_remove;
    (destruct (hashable key) eqn:Hhash; simpl; [|done]);
    (destruct key as [| | |k| | |]; try done);
    rewrite bool_decide_false; try done; by apply Hkey.
Qed.

Lemma unobserve_state_missing_key_witness :
  unobserve_state (PyStr "gradient_norm") (PyStr "training")
    (init (mk_Trainer 0 0))
  = (Raise (if hashable (PyStr "gradient_norm") then KeyError else TypeError),
     init (mk_Trainer 0 0)).
Proof.
  apply (unobserve_state_missing_key (PyStr "gradient_norm") "training"
           (init (mk_Trainer 0 0))).
  - rewrite !elem_of_cons. left. reflexivity.
  - intros k Hk. injection Hk as <-. vm_compute. intros H. discriminate H.
Defined.

(** X6: observing a list of distinct keys that the registry does not hold
    and unobserving the same list gives back the logger. *)
Theorem observe_states_then_unobserve_states (keys : list string)
    (observe_while : string) (self : TensorboardLogger) :
  observe_while ∈ ["training"; "validating"] ->
  NoDup keys ->
  (forall key, key ∈ keys -> key ∉ states_observed_while observe_while self) ->
  (observe_states (map PyStr keys) (PyStr observe_while);;
   unobserve_states (map PyStr keys) (PyStr observe_while)) self
  = (Ok tt, self).
Proof.
  intros Hphase Hnodup Hfresh.
  assert (PyStr observe_while ∈ phase_tokens) as Htoken.
  { unfold phase_tokens. rewrite !elem_of_cons, elem_of_nil in Hphase.
    rewrite !elem_of_cons. destruct Hphase as [-> | [-> | []]]; tauto. }
  rewrite (bind_ok _ _ _ _ _ (observe_states_ok keys _ self Htoken)).
  rewrite (unobserve_states_ok keys observe_while
             (with_observed observe_while (fun s => list_to_set keys ∪ s) self)
             Hphase Hnodup).
  2:{ intros key Hkey. rewrite states_observed_while_with_observed by done.
      rewrite elem_of_union, elem_of_list_to_set. by left. }
  rewrite with_observed_compose. f_equal.
  rewrite !elem_of_cons, elem_of_nil in Hphase.
  destruct Hphase as [-> | [-> | []]]; unfold states_observed_while in Hfresh;
    simpl in Hfresh; unfold with_observed; simpl; destruct self; simpl in *;
    unfold set_training, set_validating; simpl; f_equal;
    apply leibniz_equiv; intros x;
    rewrite elem_of_difference, elem_of_union, elem_of_list_to_set;
    specialize (Hfresh x); tauto.
Qed.

Lemma observe_states_then_unobserve_states_witness :
  (observe_states (map PyStr ["gradient_norm"; "weight_norm"]) (PyStr "training");;
   unobserve_states (map PyStr ["gradient_norm"; "weight_norm"]) (PyStr "training"))
    (init (mk_Trainer 0 0))
  = (Ok tt, init (mk_Trainer 0 0)).
Proof.
  apply (observe_states_then_unobserve_states ["gradient_norm"; "weight_norm"]
           "training" (init (mk_Trainer 0 0))).
  - rewrite !elem_of_cons. left. reflexivity.
  - apply NoDup_cons. split.
    + rewrite elem_of_cons, elem_of_nil. intros [H | []]. discriminate H.
    + apply NoDup_cons. split; [apply not_elem_of_nil | apply NoDup_nil_2].
  - intros key Hkey. rewrite !elem_of_cons, elem_of_nil in Hkey.
    destruct Hkey as [-> | [-> | []]]; vm_compute; intros H; discriminate H.
Defined.

(** X7: [observe_training_and_validation_states] never raises, whatever the
    keys are (each key is formatted into a string first): it adds
    'training_<key>' to the training registry and 'validation_<key>' to the
    validating registry for every key, and changes nothing else. *)
Theorem observe_training_and_validation_states_adds (format : pyobj -> string)
    (keys : list pyobj) (self : TensorboardLogger) :
  observe_training_and_validation_states format keys self
  = (Ok tt,
     set_validating
       (fun s => list_to_set (map (fun key => "validation_" +:+ format key) keys) ∪ s)
       (set_training
          (fun s => list_to_set (map (fun key => "training_" +:+ format key) keys) ∪ s)
          self)).
Proof.
  revert self. induction keys as [|key keys IH]; intros self.
  - simpl. unfold mret, Method_ret. f_equal.
    destruct self; unfold set_training, set_validating; simpl; f_equal; set_ext.
  - simpl. unfold observe_training_and_validation_state.
    assert (observe_state (PyStr ("training" +:+ "_" +:+ format key))
              (PyStr "training") self
            = (Ok tt, set_training (fun s => {[ "training_" +:+ format key ]} ∪ s)
                        self)) as Htrain by reflexivity.
    assert (forall self0, observe_state (PyStr ("validation" +:+ "_" +:+ format key))
              (PyStr "validation") self0
            = (Ok tt, set_validating
                        (fun s => {[ "validation_" +:+ format key ]} ∪ s) self0))
      as Hvalid by reflexivity.
    erewrite bind_ok; [|erewrite bind_ok; [apply Hvalid|apply Htrain]].
    rewrite IH. f_equal.
    destruct self; unfold set_training, set_validating; simpl; f_equal; set_ext.
Qed.

(** ** Pixel normalisation, in general *)

Lemma Qc_min_le_l (x y : Qc) : (Qc_min x y <= x)%Qc.
Proof.
  unfold Qc_min. destruct (decide (y < x)%Qc) as [H|H].
  - by apply Qclt_le_weak.
  - apply Qcle_refl.
Qed.

Lemma Qc_min_le_r (x y : Qc) : (Qc_min x y <= y)%Qc.
Proof.
  unfold Qc_min. destruct (decide (y < x)%Qc) as [H|H].
  - apply Qcle_refl.
  - by apply Qcnot_lt_le.
Qed.

Lemma Qc_min_cases (x y : Qc) : Qc_min x y = x \/ Qc_min x y = y.
Proof. unfold Qc_min. destruct (decide (y < x)%Qc); auto. Qed.

Lemma Qc_max_ge_l (x y : Qc) : (x <= Qc_max x y)%Qc.
Proof.
  unfold Qc_max. destruct (decide (x < y)%Qc) as [H|H].
  - by apply Qclt_le_weak.
  - apply Qcle_refl.
Qed.

Lemma Qc_max_ge_r (x y : Qc) : (y <= Qc_max x y)%Qc.
Proof.
  unfold Qc_max. destruct (decide (x < y)%Qc) as [H|H].
  - apply Qcle_refl.
  - by apply Qcnot_lt_le.
Qed.

Lemma Qc_max_cases (x y : Qc) : Qc_max x y = x \/ Qc_max x y = y.
Proof. unfold Qc_max. destruct (decide (x < y)%Qc); auto. Qed.

(** The fold of [a.min()] returns an item that no item is below. *)
Lemma foldl_Qc_min_spec (xs : list Qc) (x : Qc) :
  foldl Qc_min x xs ∈ x :: xs
  /\ forall y, y ∈ x :: xs -> (foldl Qc_min x xs <= y)%Qc.
Proof.
  revert x. induction xs as [|z xs IH]; intros x; simpl.
  - split; [by left|]. intros y Hy. apply list_elem_of_singleton in Hy as ->.
    apply Qcle_refl.
  - destruct (IH (Qc_min x z)) as [Hin Hle]. split.
    + apply elem_of_cons in Hin as [Heq|Hin].
      * rewrite Heq. destruct (Qc_min_cases x z) as [-> | ->].
        -- by left.
        -- right. by left.
      * right. by right.
    + intros y Hy.
      assert (foldl Qc_min (Qc_min x z) xs <= Qc_min x z)%Qc as Hm.
      { apply Hle. by left. }
      rewrite !elem_of_cons in Hy. destruct Hy as [-> | [-> | Hy]].
      * eapply Qcle_trans; [exact Hm|apply Qc_min_le_l].
      * eapply Qcle_trans; [exact Hm|apply Qc_min_le_r].
      * apply Hle. by right.
Qed.

Lemma foldl_Qc_max_spec (xs : list Qc) (x : Qc) :
  foldl Qc_max x xs ∈ x :: xs
  /\ forall y, y ∈ x :: xs -> (y <= foldl Qc_max x xs)%Qc.
Proof.
  revert x. induction xs as [|z xs IH]; intros x; simpl.
  - split; [by left|]. intros y Hy. apply list_elem_of_singleton in Hy as ->.
    apply Qcle_refl.
  - destruct (IH (Qc_max x z)) as [Hin Hle]. split.
    + apply elem_of_cons in Hin as [Heq|Hin].
      * rewrite Heq. destruct (Qc_max_cases x z) as [-> | ->].
        -- by left.
        -- right. by left.
      * right. by right.
    + intros y Hy.
      assert (Qc_max x z <= foldl Qc_max (Qc_max x z) xs)%Qc as Hm.
      { apply Hle. by left. }
      rewrite !elem_of_cons in Hy. destruct Hy as [-> | [-> | Hy]].
      * eapply Qcle_trans; [apply Qc_max_ge_l|exact Hm].
      * eapply Qcle_trans; [apply Qc_max_ge_r|exact Hm].
      * apply Hle. by right.
Qed.

(** [a.min()] is the item that is below all items. *)
Lemma amin_spec (a : ndarray) (lowest : Qc) :
  amin a = Ok lowest
  <-> lowest ∈ data a /\ forall y, y ∈ data a -> (lowest <= y)%Qc.
Proof.
  unfold amin. destruct (data a) as [|x xs].
  { split; [discriminate|]. intros [H _]. by apply elem_of_nil in H. }
  destruct (foldl_Qc_min_spec xs x) as [Hin Hle]. split.
  - intros [= <-]. by split.
  - intros [Hin' Hle']. f_equal. apply Qcle_antisym; auto.
Qed.

Lemma amax_spec (a : ndarray) (highest : Qc) :
  amax a = Ok highest
  <-> highest ∈ data a /\ forall y, y ∈ data a -> (y <= highest)%Qc.
Proof.
  unfold amax. destruct (data a) as [|x xs].
  { split; [discriminate|]. intros [H _]. by apply elem_of_nil in H. }
  destruct (foldl_Qc_max_spec xs x) as [Hin Hle]. split.
  - intros [= <-]. by split.
  - intros [Hin' Hle']. f_equal. apply Qcle_antisym; auto.
Qed.

Lemma amin_amax_exist (a : ndarray) :
  data a <> [] ->
  exists lowest highest, amin a = Ok lowest /\ amax a = Ok highest.
Proof.
  intros Hne. unfold amin, amax. destruct (data a); [done|]. eauto.
Qed.

Lemma map_data_ext_in (f g : Qc -> Qc) (a : ndarray) :
  (forall x, x ∈ data a -> f x = g x) -> map_data f a = map_data g a.
Proof.
  intros H. unfold map_data. f_equal. apply map_ext_in.
  intros x Hx. apply H. by apply list_elem_of_In.
Qed.

Lemma elem_of_map_data (f : Qc -> Qc) (a : ndarray) (y : Qc) :
  y ∈ data (map_data f a) <-> exists x, y = f x /\ x ∈ data a.
Proof. unfold map_data. simpl. apply (list_elem_of_fmap f). Qed.

Lemma Qcminus_diag (x : Qc) : (x - x = 0)%Qc.
Proof. ring. Qed.

(** An image that holds an item is normalised into an image of its shape:
    the minimum and the maximum exist, and the division is only made by a
    positive maximum. *)
Lemma normalize_image_shape (image : ndarray) :
  data image <> [] ->
  exists normalized : ndarray,
    _normalize_image image = Ok normalized
    /\ shape normalized = shape image.
Proof.
  intros Hne.
  destruct (amin_amax_exist image Hne) as (lowest & _ & Hmin & _).
  unfold _normalize_image. rewrite Hmin. simpl.
  destruct (amin_amax_exist (map_data (fun x => x - lowest)%Qc image))
    as (_ & maxval & _ & Hmax).
  { unfold map_data. simpl. by destruct (data image). }
  rewrite Hmax. simpl.
  destruct (decide (0 < maxval)%Qc); eexists; split; reflexivity.
Qed.

(** X10: an image whose items are all the same number (a finite one: the
    items of the model are) is normalised to zeros: the item minus itself
    is 0 without rounding, the maximum after the shift is 0, so nothing is
    divided. *)
Theorem normalize_image_constant (image : ndarray) (value : Qc) :
  data image <> [] ->
  Forall (fun x => x = value) (data image) ->
  _normalize_image image = Ok (map_data (fun _ => 0%Qc) image).
Proof.
  intros Hne Hconst. rewrite Forall_forall in Hconst.
  assert (amin image = Ok value) as Hmin.
  { apply amin_spec. destruct (data image) as [|x xs] eqn:E; [done|]. split.
    - rewrite <- (Hconst x) by (by left). by left.
    - intros y Hy. rewrite (Hconst y Hy). apply Qcle_refl. }
  assert (map_data (fun x => x - value)%Qc image
          = map_data (fun _ => 0%Qc) image) as Hshift.
  { apply map_data_ext_in. intros x Hx. rewrite (Hconst x Hx).
    apply Qcminus_diag. }
  assert (amax (map_data (fun _ => 0%Qc) image) = Ok 0%Qc) as Hmax.
  { apply amax_spec. split.
    - apply elem_of_map_data. destruct (data image) as [|x xs]; [done|].
      exists x. split; [done|by left].
    - intros y (x & -> & _)%elem_of_map_data. apply Qcle_refl. }
  unfold _normalize_image. rewrite Hmin. simpl. rewrite Hshift, Hmax.
  reflexivity.
Qed.

Lemma normalize_image_constant_witness :
  _normalize_image (mk_ndarray [2; 2]%nat [Qc_of_Z 7; Qc_of_Z 7; Qc_of_Z 7; Qc_of_Z 7])
  = Ok (map_data (fun _ => 0%Qc)
          (mk_ndarray [2; 2]%nat [Qc_of_Z 7; Qc_of_Z 7; Qc_of_Z 7; Qc_of_Z 7])).
Proof.
  apply (normalize_image_constant
           (mk_ndarray [2; 2]%nat [Qc_of_Z 7; Qc_of_Z 7; Qc_of_Z 7; Qc_of_Z 7])
           (Qc_of_Z 7)).
  - simpl. discriminate.
  - simpl. repeat constructor.
Defined.

(** ** Axis reordering, in general *)

Lemma well_formed_moveaxis_0_2 (a : ndarray) :
  ndim a = 3%nat -> well_formed (moveaxis_0_2 a).
Proof.
  destruct a as [sh items]. unfold ndim, well_formed, moveaxis_0_2. simpl.
  destruct sh as [|d0 [|d1 [|d2 [|]]]]; try discriminate. intros _. simpl.
  rewrite length_tabulate3. lia.
Qed.

Lemma well_formed_moveaxis_2_0 (a : ndarray) :
  ndim a = 3%nat -> well_formed (moveaxis_2_0 a).
Proof.
  destruct a as [sh items]. unfold ndim, well_formed, moveaxis_2_0. simpl.
  destruct sh as [|d0 [|d1 [|d2 [|]]]]; try discriminate. intros _. simpl.
  rewrite length_tabulate3. lia.
Qed.

Lemma length_data_moveaxis_0_2 (a : ndarray) :
  well_formed a -> length (data (moveaxis_0_2 a)) = length (data a).
Proof.
  destruct a as [sh items]. unfold well_formed, moveaxis_0_2. simpl.
  destruct sh as [|d0 [|d1 [|d2 [|]]]]; try done. simpl. intros ->.
  rewrite length_tabulate3. lia.
Qed.

Lemma length_data_moveaxis_2_0 (a : ndarray) :
  well_formed a -> length (data (moveaxis_2_0 a)) = length (data a).
Proof.
  destruct a as [sh items]. unfold well_formed, moveaxis_2_0. simpl.
  destruct sh as [|d0 [|d1 [|d2 [|]]]]; try done. simpl. intros ->.
  rewrite length_tabulate3. lia.
Qed.

Lemma prod_app (l1 l2 : list nat) : prod (l1 ++ l2) = (prod l1 * prod l2)%nat.
Proof.
  unfold prod. induction l1 as [|d l1 IH]; simpl; [lia|]. rewrite IH. lia.
Qed.

(** X13: converting a 3-d image of shape (H, W, C) from HWC to CHW (the
    format token is read case-insensitively) returns the transposed array:
    its shape is (C, H, W), the item at [k, i, j] is the item of the image at
    [i, j, k], and moving the first axis back to the end recovers a
    well-formed image. *)
Theorem order_image_axes_hwc_to_chw (image : ndarray) (image_format : string)
    (H W C : nat) :
  shape image = [H; W; C] ->
  upper image_format = "HWC" ->
  exists moved : ndarray,
    _order_image_axes image image_format "CHW" = Ok moved
    /\ shape moved = [C; H; W]
    /\ well_formed moved
    /\ (forall i j k, (i < H)%nat -> (j < W)%nat -> (k < C)%nat ->
                      get3 moved k i j = get3 image i j k)
    /\ (well_formed image -> moveaxis_0_2 moved = image).
Proof.
  intros Hshape Hformat. exists (moveaxis_2_0 image).
  assert (ndim image = 3%nat) as Hdim by (unfold ndim; by rewrite Hshape).
  split; [|split; [|split; [|split]]].
  - unfold _order_image_axes. rewrite Hdim, Hformat. reflexivity.
  - unfold moveaxis_2_0. by rewrite Hshape.
  - by apply well_formed_moveaxis_2_0.
  - intros i j k Hi Hj Hk. unfold moveaxis_2_0. rewrite Hshape.
    unfold get3 at 1. simpl. by rewrite nth_tabulate3.
  - intros Hwf. by apply moveaxis_0_2_2_0.
Qed.

Lemma order_image_axes_hwc_to_chw_witness :
  exists moved : ndarray,
    _order_image_axes
      (mk_ndarray [1; 2; 3]%nat
         [Qc_of_Z 0; Qc_of_Z 1; Qc_of_Z 2; Qc_of_Z 3; Qc_of_Z 4; Qc_of_Z 5])
      "hwc" "CHW" = Ok moved
    /\ shape moved = [3; 1; 2]%nat
    /\ well_formed moved
    /\ (forall i j k, (i < 1)%nat -> (j < 2)%nat -> (k < 3)%nat ->
          get3 moved k i j
          = get3 (mk_ndarray [1; 2; 3]%nat
                    [Qc_of_Z 0; Qc_of_Z 1; Qc_of_Z 2; Qc_of_Z 3; Qc_of_Z 4;
                     Qc_of_Z 5]) i j k)
    /\ (well_formed
          (mk_ndarray [1; 2; 3]%nat
             [Qc_of_Z 0; Qc_of_Z 1; Qc_of_Z 2; Qc_of_Z 3; Qc_of_Z 4; Qc_of_Z 5])
        -> moveaxis_0_2 moved
           = mk_ndarray [1; 2; 3]%nat
               [Qc_of_Z 0; Qc_of_Z 1; Qc_of_Z 2; Qc_of_Z 3; Qc_of_Z 4; Qc_of_Z 5]).
Proof.
  apply (order_image_axes_hwc_to_chw
           (mk_ndarray [1; 2; 3]%nat
              [Qc_of_Z 0; Qc_of_Z 1; Qc_of_Z 2; Qc_of_Z 3; Qc_of_Z 4; Qc_of_Z 5])
           "hwc" 1 2 3); reflexivity.
Defined.

(** X14: whatever [_order_image_axes] returns is a 3-d array holding as many
    items as the image it was given, and it is well formed when the image
    is: a 2-d image gains one axis of length 1, a 3-d image keeps its axes
    or has them permuted. *)
Theorem order_image_axes_returns_3d (image ordered : ndarray)
    (image_format target_format : string) :
  well_formed image ->
  _order_image_axes image image_format target_format = Ok ordered ->
  ndim ordered = 3%nat
  /\ well_formed ordered
  /\ length (data ordered) = length (data image).
Proof.
  intros Hwf. unfold _order_image_axes.
  destruct (Nat.eqb_spec (ndim image) 2) as [H2|_].
  { assert (ndim (expand_front image) = 3%nat
            /\ well_formed (expand_front image)) as [??].
    { unfold ndim, well_formed, expand_front in *. simpl.
      rewrite H2. split; [done|]. rewrite Hwf. unfold prod. simpl. lia. }
    assert (ndim (expand_back image) = 3%nat
            /\ well_formed (expand_back image)) as [??].
    { unfold ndim, well_formed, expand_back in *. simpl.
      rewrite length_app, H2. split; [done|]. rewrite Hwf, prod_app.
      unfold prod. simpl. lia. }
    repeat case_match; intros [= <-]; done. }
  destruct (Nat.eqb_spec (ndim image) 3) as [H3|_]; simpl.
  2:{ discriminate. }
  pose proof (well_formed_moveaxis_0_2 image H3).
  pose proof (well_formed_moveaxis_2_0 image H3).
  pose proof (length_data_moveaxis_0_2 image Hwf).
  pose proof (length_data_moveaxis_2_0 image Hwf).
  assert (ndim (moveaxis_0_2 image) = 3%nat /\ ndim (moveaxis_2_0 image) = 3%nat)
    as [??].
  { destruct image as [sh items]. unfold ndim in *. simpl in H3.
    destruct sh as [|d0 [|d1 [|d2 [|]]]]; by try discriminate. }
  repeat case_match; intros [= <-]; done.
Qed.

Lemma order_image_axes_returns_3d_witness :
  ndim (expand_front (mk_ndarray [1; 2]%nat [0; 1]%Qc)) = 3%nat
  /\ well_formed (expand_front (mk_ndarray [1; 2]%nat [0; 1]%Qc))
  /\ length (data (expand_front (mk_ndarray [1; 2]%nat [0; 1]%Qc)))
     = length (data (mk_ndarray [1; 2]%nat [0; 1]%Qc)).
Proof.
  apply (order_image_axes_returns_3d (mk_ndarray [1; 2]%nat [0; 1]%Qc)
           (expand_front (mk_ndarray [1; 2]%nat [0; 1]%Qc)) "CHW" "CHW");
    reflexivity.
Defined.

(** ** Extraction, in general *)

Lemma flat_map_nil {A B : Type} (l : list A) :
  flat_map (fun _ => @nil B) l = [].
Proof. induction l; simpl; done. Qed.

(** A comprehension with a condition runs over the items that pass it. *)
Lemma flat_map_if_selected {B : Type} (indices : list Z) (n : nat)
    (h : nat -> list B) :
  flat_map (fun i => if index_in i indices then h i else []) (seq 0 n)
  = flat_map h (selected indices n).
Proof.
  unfold selected, index_in. induction (seq 0 n) as [|i l IH]; simpl; [done|].
  rewrite IH. case_bool_decide.
  - by rewrite filter_cons_True.
  - by rewrite filter_cons_False.
Qed.

Lemma map_if_selected {B : Type} (indices : list Z) (n : nat) (h : nat -> B) :
  flat_map (fun i => if index_in i indices then [h i] else []) (seq 0 n)
  = map h (selected indices n).
Proof. by rewrite flat_map_if_selected, flat_map_singleton. Qed.

Lemma NoDup_selected (indices : list Z) (n : nat) : NoDup (selected indices n).
Proof. unfold selected. apply NoDup_filter, NoDup_seq. Qed.

Lemma elem_of_selected (indices : list Z) (n i : nat) :
  i ∈ selected indices n <-> (i < n)%nat /\ Z.of_nat i ∈ indices.
Proof.
  unfold selected. rewrite list_elem_of_filter, elem_of_seq.
  split; intros [??]; split; (done || lia).
Qed.

(** The comprehension over an image batch. *)
Lemma image_comprehension_selected (batch : ndarray) (N C : nat)
    (inner : list nat) (batch_indices channel_indices : list Z)
    (f : nat -> nat -> ndarray -> image_item) :
  shape batch = N :: C :: inner ->
  flat_map (fun '(instance_num, instance) =>
    flat_map (fun '(channel_num, image) =>
      if index_in instance_num batch_indices
         && index_in channel_num channel_indices
      then [f instance_num channel_num image]
      else [])
      (enumerate (iterate instance)))
    (enumerate (iterate batch))
  = flat_map (fun i =>
      map (fun c => f i c (item (item batch i) c)) (selected channel_indices C))
      (selected batch_indices N).
Proof.
  intros Hshape. rewrite (enumerate_iterate batch N (C :: inner)) by done.
  rewrite flat_map_map, <- flat_map_if_selected.
  apply flat_map_ext_in. intros i Hi%in_seq.
  rewrite (enumerate_iterate (item batch i) C inner)
    by (by rewrite shape_item, Hshape).
  rewrite flat_map_map. destruct (index_in i batch_indices); simpl.
  - apply map_if_selected.
  - apply flat_map_nil.
Qed.

(** The comprehension over a volume batch. *)
Lemma volume_comprehension_selected (batch : ndarray) (N C D : nat)
    (inner : list nat) (batch_indices channel_indices z_indices : list Z)
    (f : nat -> nat -> nat -> ndarray -> image_item) :
  shape batch = N :: C :: D :: inner ->
  flat_map (fun '(instance_num, instance) =>
    flat_map (fun '(channel_num, volume) =>
      flat_map (fun '(slice_num, image) =>
        if index_in instance_num batch_indices
           && index_in channel_num channel_indices
           && index_in slice_num z_indices
        then [f instance_num channel_num slice_num image]
        else [])
        (enumerate (iterate volume)))
      (enumerate (iterate instance)))
    (enumerate (iterate batch))
  = flat_map (fun i =>
      flat_map (fun c =>
        map (fun z => f i c z (item (item (item batch i) c) z))
          (selected z_indices D))
        (selected channel_indices C))
      (selected batch_indices N).
Proof.
  intros Hshape. rewrite (enumerate_iterate batch N (C :: D :: inner)) by done.
  rewrite flat_map_map, <- flat_map_if_selected.
  apply flat_map_ext_in. intros i Hi%in_seq.
  rewrite (enumerate_iterate (item batch i) C (D :: inner))
    by (by rewrite shape_item, Hshape).
  rewrite flat_map_map.
  destruct (index_in i batch_indices); simpl.
  2:{ rewrite (flat_map_ext_in _ (fun _ => [])); [apply flat_map_nil|].
      intros c _.
      rewrite (enumerate_iterate (item (item batch i) c) D inner)
        by (by rewrite !shape_item, Hshape).
      rewrite flat_map_map. apply flat_map_nil. }
  rewrite <- flat_map_if_selected.
  apply flat_map_ext_in. intros c Hc%in_seq.
  rewrite (enumerate_iterate (item (item batch i) c) D inner)
    by (by rewrite !shape_item, Hshape).
  rewrite flat_map_map. destruct (index_in c channel_indices); simpl.
  - apply map_if_selected.
  - apply flat_map_nil.
Qed.

Lemma length_flat_map_flat_map_map {A B C D : Type} (f : A -> B -> C -> D)
    (la : list A) (lb : list B) (lc : list C) :
  length (flat_map (fun a => flat_map (fun b => map (f a b) lc) lb) la)
  = (length la * (length lb * length lc))%nat.
Proof.
  apply flat_map_constant_length. intros a _. apply length_flat_map_map.
Qed.

Lemma extract_images_image_batch_run (format : pyobj -> string)
    (config : Config) (t : Tensor) (N C H W : nat)
    (batch_indices channel_indices : list Z) (base_tag prefix : option string) :
  shape (numpy t) = [N; C; H; W] ->
  resolve_indices (image_batch_indices config) N = Ok batch_indices ->
  resolve_indices (image_channel_indices config) C = Ok channel_indices ->
  check_prefix base_tag prefix = Ok tt ->
  extract_images_from_batch format config (PyTensor t) base_tag prefix
  = Ok (flat_map (fun i =>
          map (fun c =>
            emit base_tag prefix (item (item (numpy t) i) c)
              (Some i) (Some c) None)
            (selected channel_indices C))
          (selected batch_indices N)).
Proof.
  intros Hshape Hbatch Hchannel Hprefix. simpl. rewrite Hprefix. simpl.
  unfold extract_images_from_tensor, is_image_tensor, is_volume_tensor,
    dim, ndim. rewrite Hshape. simpl. rewrite Hbatch, Hchannel. simpl.
  f_equal.
  by apply (image_comprehension_selected (numpy t) N C [H; W]).
Qed.

(** X15: extraction from an image batch of shape (N, C, H, W) for any
    supported selection. The images returned are [batch[i][c]] for the
    instance numbers i below N and the channel numbers c below C that the two
    selections hold, in increasing order, whatever the order of the
    selections; an index outside the axis (a negative one included) or
    listed twice changes nothing, and the z selection is not read. With a
    base tag no two of the tags are equal. *)
Theorem extract_images_image_batch_selected (format : pyobj -> string)
    (config : Config) (t : Tensor) (N C H W : nat)
    (batch_indices channel_indices : list Z) (base_tag prefix : option string) :
  shape (numpy t) = [N; C; H; W] ->
  resolve_indices (image_batch_indices config) N = Ok batch_indices ->
  resolve_indices (image_channel_indices config) C = Ok channel_indices ->
  check_prefix base_tag prefix = Ok tt ->
  exists images : list image_item,
    extract_images_from_batch format config (PyTensor t) base_tag prefix
    = Ok images
    /\ images
       = flat_map (fun i =>
           map (fun c =>
             emit base_tag prefix (item (item (numpy t) i) c)
               (Some i) (Some c) None)
             (selected channel_indices C))
           (selected batch_indices N)
    /\ length images
       = (length (selected batch_indices N)
          * length (selected channel_indices C))%nat
    /\ (base_tag <> None -> NoDup (image_tags images)).
Proof.
  intros Hshape Hbatch Hchannel Hprefix.
  eexists. split; [|split; [reflexivity|split]].
  - by apply (extract_images_image_batch_run format config t N C H W).
  - apply length_flat_map_map.
  - destruct base_tag as [base|]; [intros _|done]. unfold emit.
    rewrite (image_tags_tagged (fun i c =>
      _tag_image (item (item (numpy t) i) c) base prefix
        (Some i) (Some c) None)).
    apply (NoDup_flat_map_map (fun i c => TaggedImage.tag
      (_tag_image (item (item (numpy t) i) c) base prefix
         (Some i) (Some c) None))); try apply NoDup_selected.
    intros i c i' c'. apply tag_image_inj.
Qed.

Lemma extract_images_image_batch_selected_witness :
  exists images : list image_item,
    extract_images_from_batch (fun _ => "")
      (mk_Config (SelList [3; 0; 0; -1]%Z) (SelInt 1) SelOther)
      (PyTensor (zeros [2; 2; 1; 1]%nat)) (Some "inputs") None
    = Ok images
    /\ images
       = flat_map (fun i =>
           map (fun c =>
             emit (Some "inputs") None
               (item (item (numpy (zeros [2; 2; 1; 1]%nat)) i) c)
               (Some i) (Some c) None)
             (selected [1%Z] 2))
           (selected [3; 0; 0; -1]%Z 2)
    /\ length images
       = (length (selected [3; 0; 0; -1]%Z 2) * length (selected [1%Z] 2))%nat
    /\ (Some "inputs" <> None -> NoDup (image_tags images)).
Proof.
  apply (extract_images_image_batch_selected (fun _ => "")
           (mk_Config (SelList [3; 0; 0; -1]%Z) (SelInt 1) SelOther)
           (zeros [2; 2; 1; 1]%nat) 2 2 1 1 [3; 0; 0; -1]%Z [1%Z]
           (Some "inputs") None); reflexivity.
Defined.

(** The tag of a slice determines its instance, channel and slice number. *)
Lemma tag_slice_inj (image image' : ndarray) (base_tag : string)
    (prefix : option string) (i c z i' c' z' : nat) :
  TaggedImage.tag (_tag_image image base_tag prefix (Some i) (Some c) (Some z))
  = TaggedImage.tag
      (_tag_image image' base_tag prefix (Some i') (Some c') (Some z')) ->
  i = i' /\ c = c' /\ z = z'.
Proof.
  unfold _tag_image. simpl.
  set (stem := match prefix with
               | Some p => base_tag +:+ "/" +:+ p
               | None => base_tag
               end).
  rewrite !string_app_assoc. intros Heq.
  apply (inj (String.app stem)) in Heq.
  apply (inj (String.app "/instance_")) in Heq.
  apply digits_split in Heq as [Hi Hc];
    [|apply pretty_nat_digits|apply pretty_nat_digits|done].
  apply (inj pretty) in Hi.
  apply (inj (String.app "channel_")) in Hc.
  apply digits_split in Hc as [Hc Hz];
    [|apply pretty_nat_digits|apply pretty_nat_digits|done].
  apply (inj pretty) in Hc.
  apply (inj (String.app "slice_")) in Hz.
  apply (inj pretty) in Hz. done.
Qed.

Lemma flat_map_flat_map {A B C : Type} (f : A -> list B) (g : B -> list C)
    (l : list A) :
  flat_map g (flat_map f l) = flat_map (fun a => flat_map g (f a)) l.
Proof.
  induction l as [|a l IH]; simpl; [done|]. by rewrite flat_map_app, IH.
Qed.

Lemma NoDup_flat_map_flat_map_map {A B C D : Type} (f : A -> B -> C -> D)
    (la : list A) (lb : list B) (lc : list C) :
  (forall a b c a' b' c', f a b c = f a' b' c' -> a = a' /\ b = b' /\ c = c') ->
  NoDup la -> NoDup lb -> NoDup lc ->
  NoDup (flat_map (fun a => flat_map (fun b => map (f a b) lc) lb) la).
Proof.
  intros Hinj Hla Hlb Hlc.
  assert (flat_map (fun a => flat_map (fun b => map (f a b) lc) lb) la
          = flat_map (fun p : A * B => map (f (fst p) (snd p)) lc)
              (flat_map (fun a => map (pair a) lb) la)) as ->.
  { rewrite flat_map_flat_map. apply flat_map_ext_in. intros a _.
    by rewrite flat_map_map. }
  apply (NoDup_flat_map_map (fun p : A * B => f (fst p) (snd p))).
  - intros [a b] c [a' b'] c' Heq. simpl in Heq.
    destruct (Hinj _ _ _ _ _ _ Heq) as (-> & -> & ->). done.
  - apply (NoDup_flat_map_map pair); [|done|done].
    intros a b a' b' [= -> ->]. done.
  - done.
Qed.

Lemma image_tags_app (l1 l2 : list image_item) :
  image_tags (l1 ++ l2) = image_tags l1 ++ image_tags l2.
Proof. unfold image_tags. apply flat_map_app. Qed.

Lemma image_tags_slices {A B C : Type} (g : A -> B -> C -> TaggedImage)
    (la : list A) (lb : list B) (lc : list C) :
  image_tags
    (flat_map (fun a => flat_map (fun b => map (fun c => Tagged (g a b c)) lc) lb)
       la)
  = flat_map (fun a =>
      flat_map (fun b => map (fun c => TaggedImage.tag (g a b c)) lc) lb) la.
Proof.
  induction la as [|a la IH]; simpl; [done|].
  rewrite image_tags_app, IH. f_equal.
  apply (image_tags_tagged (fun b c => g a b c)).
Qed.

(** X16: extraction from a volume batch of shape (N, C, D, H, W) for any
    supported selection: the images returned are the slices
    [batch[i][c][z]] for the selected instance, channel and slice numbers
    that exist, in increasing order; with a base tag no two of their tags are
    equal. *)
Theorem extract_images_volume_batch_selected (format : pyobj -> string)
    (config : Config) (t : Tensor) (N C D H W : nat)
    (batch_indices channel_indices z_indices : list Z)
    (base_tag prefix : option string) :
  shape (numpy t) = [N; C; D; H; W] ->
  resolve_indices (image_batch_indices config) N = Ok batch_indices ->
  resolve_indices (image_channel_indices config) C = Ok channel_indices ->
  resolve_z_indices (volume_z_indices config) D = Ok z_indices ->
  check_prefix base_tag prefix = Ok tt ->
  exists images : list image_item,
    extract_images_from_batch format config (PyTensor t) base_tag prefix
    = Ok images
    /\ images
       = flat_map (fun i =>
           flat_map (fun c =>
             map (fun z =>
               emit base_tag prefix (item (item (item (numpy t) i) c) z)
                 (Some i) (Some c) (Some z))
               (selected z_indices D))
             (selected channel_indices C))
           (selected batch_indices N)
    /\ length images
       = (length (selected batch_indices N)
          * (length (selected channel_indices C)
             * length (selected z_indices D)))%nat
    /\ (base_tag <> None -> NoDup (image_tags images)).
Proof.
  intros Hshape Hbatch Hchannel Hz Hprefix.
  eexists. split; [|split; [reflexivity|split]].
  - simpl. rewrite Hprefix. simpl.
    unfold extract_images_from_tensor, is_image_tensor, is_volume_tensor,
      dim, ndim. rewrite Hshape. simpl. rewrite Hbatch, Hchannel, Hz. simpl.
    f_equal.
    by apply (volume_comprehension_selected (numpy t) N C D [H; W] _ _ _
                (fun i c z image => emit base_tag prefix image
                                      (Some i) (Some c) (Some z))).
  - apply length_flat_map_flat_map_map.
  - destruct base_tag as [base|]; [intros _|done]. unfold emit.
    rewrite (image_tags_slices (fun i c z =>
      _tag_image (item (item (item (numpy t) i) c) z) base prefix
        (Some i) (Some c) (Some z))).
    apply (NoDup_flat_map_flat_map_map (fun i c z => TaggedImage.tag
      (_tag_image (item (item (item (numpy t) i) c) z) base prefix
         (Some i) (Some c) (Some z)))); try apply NoDup_selected.
    intros i c z i' c' z'. apply tag_slice_inj.
Qed.

Lemma extract_images_volume_batch_selected_witness :
  exists images : list image_item,
    extract_images_from_batch (fun _ => "")
      (mk_Config (SelStr "all") (SelStr "all") (SelStr "all"))
      (PyTensor (zeros [1; 2; 3; 1; 1]%nat)) (Some "prediction") None
    = Ok images
    /\ images
       = flat_map (fun i =>
           flat_map (fun c =>
             map (fun z =>
               emit (Some "prediction") None
                 (item (item (item (numpy (zeros [1; 2; 3; 1; 1]%nat)) i) c) z)
                 (Some i) (Some c) (Some z))
               (selected (range 3) 3))
             (selected (range 2) 2))
           (selected (range 1) 1)
    /\ length images
       = (length (selected (range 1) 1)
          * (length (selected (range 2) 2) * length (selected (range 3) 3)))%nat
    /\ (Some "prediction" <> None -> NoDup (image_tags images)).
Proof.
  apply (extract_images_volume_batch_selected (fun _ => "")
           (mk_Config (SelStr "all") (SelStr "all") (SelStr "all"))
           (zeros [1; 2; 3; 1; 1]%nat) 1 2 3 1 1 (range 1) (range 2) (range 3)
           (Some "prediction") None); reflexivity.
Defined.

Lemma result_bind_ok {A B : Type} (m : result A) (f : A -> result B) (a : A) :
  m = Ok a -> m ≫= f = f a.
Proof. by intros ->. Qed.

(** X17: the list branch works on a list of two-item tuples
    [(label, batch)]: the images of the batches are concatenated in order,
    each batch extracted with the prefix 'batch_<label>' in place of the
    prefix the call was given. *)
Theorem extract_images_list_of_pairs (format : pyobj -> string)
    (config : Config) (pairs : list (pyobj * pyobj))
    (extracted : list (list image_item)) (base_tag : string)
    (prefix : option string) :
  Forall2 (fun pair images =>
             extract_images_from_batch format config (snd pair) (Some base_tag)
               (Some ("batch_" +:+ format (fst pair)))
             = Ok images)
    pairs extracted ->
  extract_images_from_batch format config
    (PyList (map (fun pair => PyTuple [fst pair; snd pair]) pairs))
    (Some base_tag) prefix
  = Ok (concat extracted).
Proof.
  intros Hall. simpl.
  induction Hall as [|[label batch] images pairs extracted Hone _ IH];
    [done|].
  simpl in Hone |- *. rewrite Hone. simpl. by rewrite IH.
Qed.

Lemma extract_images_list_of_pairs_witness :
  extract_images_from_batch (fun _ => "0") (_config (init (mk_Trainer 0 0)))
    (PyList (map (fun pair => PyTuple [fst pair; snd pair])
               [(PyInt 0, PyTensor (zeros [1; 1; 1; 1]%nat))]))
    (Some "inputs") None
  = Ok (concat
          [[Tagged (_tag_image
                      (item (item (numpy (zeros [1; 1; 1; 1]%nat)) 0) 0)
                      "inputs" (Some "batch_0") (Some 0%nat) (Some 0%nat) None)]]).
Proof.
  apply (extract_images_list_of_pairs (fun _ => "0")
           (_config (init (mk_Trainer 0 0)))
           [(PyInt 0, PyTensor (zeros [1; 1; 1; 1]%nat))]
           [[Tagged (_tag_image
                       (item (item (numpy (zeros [1; 1; 1; 1]%nat)) 0) 0)
                       "inputs" (Some "batch_0") (Some 0%nat) (Some 0%nat) None)]]
           "inputs" None).
  repeat constructor.
Defined.

Lemma extract_images_without_base_tag (format : pyobj -> string)
    (config : Config) (batch : pyobj) (prefix : string) :
  extract_images_from_batch format config batch None (Some prefix)
  = Raise ValueError.
Proof. by destruct batch. Qed.

(** X18: without a base tag the list branch cannot succeed: for a list or
    tuple that is not empty, [extract_images_from_batch] raises [ValueError]
    or [TypeError], because every item is passed on with a prefix and a
    prefix without a base tag is refused. *)
Theorem extract_images_list_without_base_tag (format : pyobj -> string)
    (config : Config) (first : pyobj) (rest : list pyobj)
    (prefix : option string) :
  exists e : exn,
    extract_images_from_batch format config (PyList (first :: rest)) None prefix
    = Raise e
    /\ extract_images_from_batch format config (PyTuple (first :: rest)) None
         prefix
       = Raise e
    /\ (e = ValueError \/ e = TypeError).
Proof.
  destruct prefix as [p|].
  { exists ValueError. split; [done|split; [done|by left]]. }
  assert (forall o p, extract_images_from_leaf config o None (Some p)
                      = Raise ValueError) as Hleaf by done.
  destruct first as [| | |s|xs|xs|t]; simpl.
  - exists TypeError. auto.
  - exists TypeError. auto.
  - exists TypeError. auto.
  - destruct s as [|c1 [|c2 [|c3 s]]]; simpl; eauto.
  - destruct xs as [|a [|b [|c xs]]]; eauto.
    rewrite extract_images_without_base_tag. simpl. eauto.
  - destruct xs as [|a [|b [|c xs]]]; eauto.
    rewrite extract_images_without_base_tag. simpl. eauto.
  - destruct (shape (numpy t)) as [|n inner]; simpl; eauto.
    destruct (n =? 2)%nat; simpl; eauto.
Qed.

Lemma selected_range (n : nat) : selected (range n) n = seq 0 n.
Proof.
  unfold selected.
  assert (forall l : list nat,
            Forall (fun i => Z.of_nat i ∈ range n) l ->
            filter (fun i => Z.of_nat i ∈ range n) l = l) as Hall.
  { induction 1 as [|i l Hi _ IH]; [done|].
    by rewrite filter_cons_True, IH. }
  apply Hall. apply Forall_forall. intros i Hi%elem_of_seq. unfold range.
  apply list_elem_of_fmap. exists i. split; [done|]. by apply elem_of_seq.
Qed.

(** ** Writing images *)

Lemma wrote_nil (self : TensorboardLogger) : wrote [] self self.
Proof. unfold wrote. by rewrite app_nil_r. Qed.

Lemma wrote_app (ws1 ws2 : list write) (self1 self2 self3 : TensorboardLogger) :
  wrote ws1 self1 self2 -> wrote ws2 self2 self3 ->
  wrote (ws1 ++ ws2) self1 self3.
Proof.
  unfold wrote.
  intros (Hw1 & Ht1 & Hc1 & Hr1 & Hv1 & Hi1) (Hw2 & Ht2 & Hc2 & Hr2 & Hv2 & Hi2).
  rewrite Hw2, Hw1, app_assoc. repeat split; congruence.
Qed.

Lemma writer_call_wrote (w : write) (self : TensorboardLogger) :
  exists self', writer_call w self = (Ok tt, self') /\ wrote [w] self self'.
Proof. eexists. split; [reflexivity|]. by repeat split. Qed.

Lemma log_images_loop_step (tag : string) (image_num : nat)
    (image : image_item) (images : list (nat * image_item)) (step : Z)
    (image_format : string) (self : TensorboardLogger) :
  log_images_loop tag ((image_num, image) :: images) step image_format self
  = match prepare image_format (item_array image) with
    | Raise e => (Raise e, self)
    | Ok prepared =>
        let tag' := hd "" (written_tags tag [(image_num, image)]) in
        (writer_call (add_image tag' prepared step);;
         log_images_loop tag' images step image_format) self
    end.
Proof.
  unfold prepare. simpl. unfold mbind at 1 2, Method_bind, lift.
  destruct image as [image|image]; simpl;
    destruct (_order_image_axes _ image_format TENSORBOARDX_IMAGE_FORMAT)
      as [ordered|e]; simpl; try done;
    destruct (_normalize_image ordered) as [normalized|e]; done.
Qed.

Lemma written_tags_cons (tag : string) (image_num : nat) (image : image_item)
    (images : list (nat * image_item)) :
  written_tags tag ((image_num, image) :: images)
  = hd "" (written_tags tag [(image_num, image)])
    :: written_tags (hd "" (written_tags tag [(image_num, image)])) images.
Proof. by destruct image. Qed.

(** The loop of [log_images]: the images are written one after the other
    until one cannot be prepared. *)
Lemma log_images_loop_run (images : list (nat * image_item))
    (prepared : list ndarray) (tag : string) (step : Z) (image_format : string)
    (self : TensorboardLogger) :
  Forall2 (fun image p => prepare image_format (item_array (snd image)) = Ok p)
    images prepared ->
  (exists self',
     log_images_loop tag images step image_format self = (Ok tt, self')
     /\ wrote (zip_with (fun t p => add_image t p step)
                 (written_tags tag images) prepared) self self')
  /\ forall bad rest e,
       prepare image_format (item_array (snd bad)) = Raise e ->
       exists self',
         log_images_loop tag (images ++ bad :: rest) step image_format self
         = (Raise e, self')
         /\ wrote (zip_with (fun t p => add_image t p step)
                     (written_tags tag images) prepared) self self'.
Proof.
  intros Hall. revert tag self.
  induction Hall as [|[image_num image] p images prepared Hone _ IH];
    intros tag self.
  - split.
    + exists self. split; [done|apply wrote_nil].
    + intros [bad_num bad] rest e Hbad. exists self. simpl app.
      rewrite log_images_loop_step. simpl in Hbad. rewrite Hbad.
      split; [done|apply wrote_nil].
  - simpl in Hone.
    set (tag' := hd "" (written_tags tag [(image_num, image)])).
    destruct (writer_call_wrote (add_image tag' p step) self)
      as (self1 & Hcall & Hwrote1).
    destruct (IH tag' self1) as [(self2 & Hrun & Hwrote2) Hfail].
    rewrite written_tags_cons. fold tag'. split.
    + exists self2. rewrite log_images_loop_step, Hone. simpl. fold tag'.
      rewrite (bind_ok _ _ _ _ _ Hcall). split; [done|].
      apply (wrote_app [_] _ _ _ _ Hwrote1 Hwrote2).
    + intros bad rest e Hbad.
      destruct (Hfail bad rest e Hbad) as (self3 & Hrun3 & Hwrote3).
      exists self3. simpl app. rewrite log_images_loop_step, Hone. simpl.
      fold tag'. rewrite (bind_ok _ _ _ _ _ Hcall). split; [done|].
      apply (wrote_app [_] _ _ _ _ Hwrote1 Hwrote3).
Qed.

Lemma Forall2_zip_seq {A B : Type} (R : A -> B -> Prop) (l : list A)
    (l' : list B) (s : nat) :
  Forall2 R l l' ->
  Forall2 (fun x y => R (snd x) y) (zip (seq s (length l)) l) l'.
Proof.
  intros H. revert s. induction H as [|x y l l' Hxy _ IH]; intros s; simpl.
  - constructor.
  - constructor; [done|apply IH].
Qed.

Lemma zip_seq_app {A : Type} (l1 l2 : list A) (s : nat) :
  zip (seq s (length (l1 ++ l2))) (l1 ++ l2)
  = zip (seq s (length l1)) l1
    ++ zip (seq (s + length l1) (length l2)) l2.
Proof.
  revert s. induction l1 as [|x l1 IH]; intros s; simpl.
  - by rewrite Nat.add_0_r.
  - rewrite IH.
    by replace (s + S (length l1))%nat with (S s + length l1)%nat by lia.
Qed.

Lemma log_images_run (tag : string) (images : list image_item)
    (prepared : list ndarray) (step : Z) (image_format : string)
    (self : TensorboardLogger) :
  upper image_format ∈ ["CHW"; "HWC"] ->
  Forall2 (fun image p => prepare image_format (item_array image) = Ok p)
    images prepared ->
  exists self' : TensorboardLogger,
    log_images tag images step image_format self = (Ok tt, self')
    /\ wrote (zip_with (fun t p => add_image t p step)
                (written_tags tag (enumerate images)) prepared) self self'.
Proof.
  intros Hformat Hall. unfold log_images.
  rewrite bool_decide_true by done. unfold assert_.
  apply (Forall2_zip_seq _ _ _ 0) in Hall.
  destruct (log_images_loop_run (enumerate images) prepared tag step
              image_format self Hall) as [(self' & Hrun & Hwrote) _].
  exists self'. split; [|done]. by rewrite <- Hrun.
Qed.

Lemma length_written_tags (tag : string) (images : list (nat * image_item)) :
  length (written_tags tag images) = length images.
Proof.
  revert tag. induction images as [|[image_num [image|image]] images IH];
    intros tag; simpl; [done| |]; by rewrite IH.
Qed.

(** X19: [log_images] with a format token it accepts writes the images in
    order, one [add_image] call each, all with the given step: every image
    is put into the CHW layout and normalised, a tagged image is written
    under its own tag and a bare image under the tag of its predecessor
    extended by '/<position>'. *)
Theorem log_images_writes (tag : string) (images : list image_item)
    (prepared : list ndarray) (step : Z) (image_format : string)
    (self : TensorboardLogger) :
  upper image_format ∈ ["CHW"; "HWC"] ->
  Forall2 (fun image p => prepare image_format (item_array image) = Ok p)
    images prepared ->
  exists self' : TensorboardLogger,
    log_images tag images step image_format self = (Ok tt, self')
    /\ wrote (zip_with (fun t p => add_image t p step)
                (written_tags tag (enumerate images)) prepared) self self'
    /\ length (zip_with (fun t p => add_image t p step)
                 (written_tags tag (enumerate images)) prepared)
       = length images.
Proof.
  intros Hformat Hall.
  destruct (log_images_run tag images prepared step image_format self
              Hformat Hall) as (self' & Hrun & Hwrote).
  exists self'. split; [done|]. split; [done|].
  rewrite length_zip_with, length_written_tags.
  unfold enumerate. rewrite length_zip, length_seq, Nat.min_id.
  apply Forall2_length in Hall. lia.
Qed.

Lemma log_images_writes_witness :
  exists self' : TensorboardLogger,
    log_images "inputs"
      [Bare (mk_ndarray [1; 2]%nat [0; 1]%Qc);
       Bare (mk_ndarray [1; 2]%nat [1; 0]%Qc)]
      3 "CHW" (init (mk_Trainer 3 0))
    = (Ok tt, self')
    /\ wrote (zip_with (fun t p => add_image t p 3)
                (written_tags "inputs"
                   (enumerate [Bare (mk_ndarray [1; 2]%nat [0; 1]%Qc);
                               Bare (mk_ndarray [1; 2]%nat [1; 0]%Qc)]))
                [mk_ndarray [1; 1; 2]%nat [0; 1]%Qc;
                 mk_ndarray [1; 1; 2]%nat [1; 0]%Qc])
         (init (mk_Trainer 3 0)) self'
    /\ length (zip_with (fun t p => add_image t p 3)
                 (written_tags "inputs"
                    (enumerate [Bare (mk_ndarray [1; 2]%nat [0; 1]%Qc);
                                Bare (mk_ndarray [1; 2]%nat [1; 0]%Qc)]))
                 [mk_ndarray [1; 1; 2]%nat [0; 1]%Qc;
                  mk_ndarray [1; 1; 2]%nat [1; 0]%Qc])
       = length [Bare (mk_ndarray [1; 2]%nat [0; 1]%Qc);
                 Bare (mk_ndarray [1; 2]%nat [1; 0]%Qc)].
Proof.
  apply (log_images_writes "inputs"
           [Bare (mk_ndarray [1; 2]%nat [0; 1]%Qc);
            Bare (mk_ndarray [1; 2]%nat [1; 0]%Qc)]
           [mk_ndarray [1; 1; 2]%nat [0; 1]%Qc;
            mk_ndarray [1; 1; 2]%nat [1; 0]%Qc]
           3 "CHW" (init (mk_Trainer 3 0))).
  - rewrite !elem_of_cons. left. reflexivity.
  - repeat constructor; vm_compute; do 2 f_equal;
      repeat (f_equal; try (apply Qc_is_canon; reflexivity)).
Defined.

(** X20: [log_images] is not atomic: when an image cannot be put into the
    CHW layout or normalised, the call raises that error and the images
    before it have been written. *)
Theorem log_images_keeps_earlier_images (tag : string)
    (images : list image_item) (prepared : list ndarray) (bad : image_item)
    (rest : list image_item) (e : exn) (step : Z) (image_format : string)
    (self : TensorboardLogger) :
  upper image_format ∈ ["CHW"; "HWC"] ->
  Forall2 (fun image p => prepare image_format (item_array image) = Ok p)
    images prepared ->
  prepare image_format (item_array bad) = Raise e ->
  exists self' : TensorboardLogger,
    log_images tag (images ++ bad :: rest) step image_format self
    = (Raise e, self')
    /\ wrote (zip_with (fun t p => add_image t p step)
                (written_tags tag (enumerate images)) prepared) self self'.
Proof.
  intros Hformat Hall Hbad. unfold log_images.
  rewrite bool_decide_true by done. unfold assert_.
  apply (Forall2_zip_seq _ _ _ 0) in Hall.
  destruct (log_images_loop_run (enumerate images) prepared tag step
              image_format self Hall) as [_ Hfail].
  destruct (Hfail (length images, bad)
              (zip (seq (S (length images)) (length rest)) rest) e Hbad)
    as (self' & Hrun & Hwrote).
  exists self'. split; [|done]. rewrite <- Hrun.
  unfold enumerate. rewrite zip_seq_app. simpl. reflexivity.
Qed.

Lemma log_images_keeps_earlier_images_witness :
  exists self' : TensorboardLogger,
    log_images "inputs"
      ([Bare (mk_ndarray [1; 2]%nat [0; 1]%Qc)]
       ++ Bare (mk_ndarray [2; 0]%nat []) :: [])
      3 "CHW" (init (mk_Trainer 3 0))
    = (Raise ValueError, self')
    /\ wrote (zip_with (fun t p => add_image t p 3)
                (written_tags "inputs"
                   (enumerate [Bare (mk_ndarray [1; 2]%nat [0; 1]%Qc)]))
                [mk_ndarray [1; 1; 2]%nat [0; 1]%Qc])
         (init (mk_Trainer 3 0)) self'.
Proof.
  apply (log_images_keeps_earlier_images "inputs"
           [Bare (mk_ndarray [1; 2]%nat [0; 1]%Qc)]
           [mk_ndarray [1; 1; 2]%nat [0; 1]%Qc]
           (Bare (mk_ndarray [2; 0]%nat [])) [] ValueError
           3 "CHW" (init (mk_Trainer 3 0))).
  - rewrite !elem_of_cons. left. reflexivity.
  - repeat constructor; vm_compute; do 2 f_equal;
      repeat (f_equal; try (apply Qc_is_canon; reflexivity)).
  - reflexivity.
Defined.

(** ** Dispatch *)

Lemma log_object_list (format : pyobj -> string) (tag : string)
    (objects : list pyobj)
    (allow_scalar_logging allow_image_logging allow_histogram_logging : bool) :
  log_object format tag (PyList objects)
    allow_scalar_logging allow_image_logging allow_histogram_logging
  = log_objects_from format tag 0 objects
      allow_scalar_logging allow_image_logging allow_histogram_logging
  /\ log_object format tag (PyTuple objects)
       allow_scalar_logging allow_image_logging allow_histogram_logging
     = log_objects_from format tag 0 objects
         allow_scalar_logging allow_image_logging allow_histogram_logging.
Proof.
  simpl. generalize 0%nat.
  induction objects as [|o objects IH]; intros n; simpl; [done|].
  destruct (IH (S n)) as [-> _]. done.
Qed.

Lemma log_objects_from_floats (format : pyobj -> string) (tag : string)
    (values : list Qc) (n : nat)
    (allow_image_logging allow_histogram_logging : bool)
    (self : TensorboardLogger) :
  exists self' : TensorboardLogger,
    log_objects_from format tag n (map PyFloat values) true
      allow_image_logging allow_histogram_logging self
    = (Ok tt, self')
    /\ wrote (imap (fun k v =>
                      add_scalar (tag +:+ "_" +:+ pretty (n + k)%nat) v
                        (iteration_count (trainer self)))
                values) self self'.
Proof.
  revert n self. induction values as [|v values IH]; intros n self.
  - exists self. split; [done|apply wrote_nil].
  - destruct (log_scalar_wrote (tag +:+ "_" +:+ pretty n) v
                (iteration_count (trainer self)) self)
      as (self1 & Hcall & Hwrote1).
    destruct (IH (S n) self1) as (self2 & Hrun & Hwrote2).
    exists self2. split.
    + simpl. erewrite bind_ok; [exact Hrun|exact Hcall].
    + simpl. rewrite Nat.add_0_r.
      apply (wrote_app [_] _ _ _ _ Hwrote1).
      assert (trainer self1 = trainer self) as Htr by apply Hwrote1.
      rewrite Htr in Hwrote2.
      erewrite imap_ext; [exact Hwrote2|].
      intros k x _. simpl. by rewrite Nat.add_succ_r.
Qed.

(** X21: [log_object] on a list or tuple of plain floats writes one scalar
    per item, in order, under the tags '<tag>_0', '<tag>_1', ... and with the
    iteration count as step; it never raises. *)
Theorem log_object_list_of_floats (format : pyobj -> string) (tag : string)
    (values : list Qc) (allow_image_logging allow_histogram_logging : bool)
    (self : TensorboardLogger) :
  exists self' : TensorboardLogger,
    log_object format tag (PyList (map PyFloat values)) true
      allow_image_logging allow_histogram_logging self
    = (Ok tt, self')
    /\ log_object format tag (PyTuple (map PyFloat values)) true
         allow_image_logging allow_histogram_logging self
       = (Ok tt, self')
    /\ wrote (imap (fun k v =>
                      add_scalar (tag +:+ "_" +:+ pretty k) v
                        (iteration_count (trainer self)))
                values) self self'.
Proof.
  destruct (log_object_list format tag (map PyFloat values) true
              allow_image_logging allow_histogram_logging) as [-> ->].
  destruct (log_objects_from_floats format tag values 0 allow_image_logging
              allow_histogram_logging self) as (self' & Hrun & Hwrote).
  exists self'. repeat split; try done; apply Hwrote.
Qed.

(** ** Image batches, end to end *)

Lemma well_formed_item (a : ndarray) (n : nat) (inner : list nat) (i : nat) :
  well_formed a -> shape a = n :: inner -> (i < n)%nat ->
  well_formed (item a i) /\ shape (item a i) = inner.
Proof.
  unfold well_formed, item. intros Hwf Hshape Hi. rewrite Hshape in *.
  simpl in *. split; [|done].
  rewrite length_take, length_drop, Hwf.
  assert (i * prod inner + prod inner <= n * prod inner)%nat by nia.
  unfold prod in *. lia.
Qed.

Lemma Forall_exists_Forall2 {A B : Type} (R : A -> B -> Prop) (l : list A) :
  Forall (fun x => exists y, R x y) l -> exists l', Forall2 R l l'.
Proof.
  induction 1 as [|x l [y Hy] _ [l' IH]].
  - exists []. constructor.
  - exists (y :: l'). by constructor.
Qed.

(** A 2-d image that holds an item is prepared into an image with a channel
    axis in front. *)
Lemma prepare_2d (image : ndarray) (H W : nat) :
  shape image = [H; W] -> data image <> [] ->
  exists prepared : ndarray,
    prepare "CHW" image = Ok prepared
    /\ shape prepared = [1; H; W]%nat.
Proof.
  intros Hshape Hne. unfold prepare, _order_image_axes, ndim.
  rewrite Hshape. simpl.
  assert (data (expand_front image) <> []) as Hne' by done.
  destruct (normalize_image_shape _ Hne') as (normalized & Hrun & Hsh).
  exists normalized. split; [done|].
  rewrite Hsh. simpl. by rewrite Hshape.
Qed.

Lemma written_tags_tagged (tag : string) (images : list TaggedImage)
    (positions : list nat) :
  length positions = length images ->
  written_tags tag (zip positions (map Tagged images))
  = map TaggedImage.tag images.
Proof.
  revert tag positions. induction images as [|image images IH];
    intros tag [|p positions] Hlen; simpl in *; try done.
  f_equal. apply IH. lia.
Qed.

Lemma flat_map_map_tagged {A B : Type} (g : A -> B -> TaggedImage)
    (la : list A) (lb : list B) :
  flat_map (fun a => map (fun b => Tagged (g a b)) lb) la
  = map Tagged (flat_map (fun a => map (g a) lb) la).
Proof.
  induction la as [|a la IH]; simpl; [done|].
  by rewrite map_app, IH, map_map.
Qed.

Lemma map_flat_map_map {A B C D : Type} (h : C -> D) (g : A -> B -> C)
    (la : list A) (lb : list B) :
  map h (flat_map (fun a => map (g a) lb) la)
  = flat_map (fun a => map (fun b => h (g a b)) lb) la.
Proof.
  induction la as [|a la IH]; simpl; [done|].
  by rewrite map_app, IH, map_map.
Qed.

Lemma map_write_tag_zip_with (tags : list string) (prepared : list ndarray)
    (step : Z) :
  length tags = length prepared ->
  map write_tag (zip_with (fun t p => add_image t p step) tags prepared) = tags.
Proof.
  revert prepared. induction tags as [|t tags IH]; intros [|p prepared] Hlen;
    simpl in *; try done.
  f_equal. apply IH. lia.
Qed.

Lemma read_run {A : Type} (f : TensorboardLogger -> A)
    (self : TensorboardLogger) :
  read f self = (Ok (f self), self).
Proof. done. Qed.

Lemma lift_run {A : Type} (r : result A) (self : TensorboardLogger) :
  lift r self = (r, self).
Proof. done. Qed.

(** [log_image_or_volume_batch] on an image or volume batch: extraction,
    then [log_images]. *)
Lemma log_image_or_volume_batch_run (format : pyobj -> string) (tag : string)
    (t : Tensor) (images : list image_item) (step : Z)
    (self : TensorboardLogger) :
  is_image_or_volume_tensor (PyTensor t) = true ->
  extract_images_from_batch format (_config self) (PyTensor t) (Some tag) None
  = Ok images ->
  log_image_or_volume_batch format tag (PyTensor t) step self
  = log_images tag images
      (if (step =? 0)%Z then iteration_count (trainer self) else step)
      "CHW" self.
Proof.
  intros Htensor Hextract. unfold log_image_or_volume_batch.
  erewrite bind_ok.
  2:{ rewrite lift_run. unfold is_maybe_list_of. rewrite Htensor. reflexivity. }
  cbv beta. erewrite bind_ok; [|apply read_run]. cbv beta.
  erewrite bind_ok; [|apply read_run]. cbv beta.
  erewrite bind_ok; [|rewrite lift_run, Hextract; reflexivity].
  reflexivity.
Qed.

(** [log_object] hands a float image batch over with the iteration count as
    step. *)
Lemma log_object_float_image_batch (format : pyobj -> string) (tag : string)
    (t : Tensor) (N C H W : nat)
    (allow_scalar_logging allow_histogram_logging : bool)
    (self : TensorboardLogger) :
  dtype t = FloatTensor ->
  shape (numpy t) = [N; C; H; W] ->
  log_object format tag (PyTensor t) allow_scalar_logging true
    allow_histogram_logging self
  = log_image_or_volume_batch format tag (PyTensor t)
      (iteration_count (trainer self)) self.
Proof.
  intros Hdtype Hshape.
  assert (is_scalar_tensor (PyTensor t) = false) as Hscalar.
  { unfold is_scalar_tensor, dim, ndim. by rewrite Hshape. }
  assert (is_label_image_or_volume_tensor (PyTensor t) = false) as Hlabel.
  { unfold is_label_image_or_volume_tensor. by rewrite Hdtype. }
  assert (is_image_or_volume_tensor (PyTensor t) = true) as Himage.
  { unfold is_image_or_volume_tensor, is_image_tensor, dim, ndim.
    by rewrite Hshape. }
  change (log_object format tag (PyTensor t) allow_scalar_logging true
            allow_histogram_logging)
    with (log_object_leaf format tag (PyTensor t) allow_scalar_logging true
            allow_histogram_logging).
  unfold log_object_leaf.
  erewrite bind_ok; [|apply read_run]. cbv beta.
  by rewrite Hscalar, Hlabel, Himage.
Qed.

(** X22: logging a float image batch of shape (N, C, H, W) that holds items
    (H and W positive), with batch and channel selection 'all' and image
    logging allowed: [log_object] returns after exactly N x C [add_image]
    calls, under pairwise different tags, each with the iteration count as
    step and an image of shape (1, H, W); nothing else of the logger
    changes. *)
Theorem log_object_image_batch (format : pyobj -> string) (tag : string)
    (t : Tensor) (N C H W : nat)
    (allow_scalar_logging allow_histogram_logging : bool)
    (self : TensorboardLogger) :
  dtype t = FloatTensor ->
  shape (numpy t) = [N; C; H; W] ->
  well_formed (numpy t) ->
  (0 < H)%nat -> (0 < W)%nat ->
  image_batch_indices (_config self) = SelStr "all" ->
  image_channel_indices (_config self) = SelStr "all" ->
  exists (self' : TensorboardLogger) (ws : list write),
    log_object format tag (PyTensor t) allow_scalar_logging true
      allow_histogram_logging self
    = (Ok tt, self')
    /\ wrote ws self self'
    /\ length ws = (N * C)%nat
    /\ NoDup (map write_tag ws)
    /\ Forall (fun w =>
                 exists image_tag image,
                   w = add_image image_tag image (iteration_count (trainer self))
                   /\ shape image = [1; H; W]%nat) ws.
Proof.
  intros Hdtype Hshape Hwf HH HW Hbatch Hchannel.
  set (count := iteration_count (trainer self)).
  set (tagged := flat_map (fun i =>
         map (fun c => _tag_image (item (item (numpy t) i) c) tag None
                         (Some i) (Some c) None) (seq 0 C)) (seq 0 N)).
  (* the images extracted *)
  assert (extract_images_from_batch format (_config self) (PyTensor t)
            (Some tag) None = Ok (map Tagged tagged)) as Hextract.
  { rewrite (extract_images_image_batch_run format (_config self) t N C H W
               (range N) (range C) (Some tag) None); try done.
    - unfold tagged. by rewrite !selected_range, <- flat_map_map_tagged.
    - by rewrite Hbatch.
    - by rewrite Hchannel. }
  (* every one of them can be prepared *)
  assert (Forall (fun image =>
            exists p, prepare "CHW" (item_array image) = Ok p
                      /\ shape p = [1; H; W]%nat)
            (map Tagged tagged)) as Hprepare.
  { apply Forall_forall. intros image (ti & -> & Hti)%list_elem_of_fmap.
    unfold tagged in Hti.
    apply list_elem_of_In, in_flat_map in Hti as (i & Hi%in_seq & Hti).
    apply in_map_iff in Hti as (c & <- & Hc%in_seq). simpl.
    destruct (well_formed_item (numpy t) N [C; H; W] i Hwf Hshape)
      as [Hwf1 Hshape1]; [lia|].
    destruct (well_formed_item (item (numpy t) i) C [H; W] c Hwf1 Hshape1)
      as [Hwf2 Hshape2]; [lia|].
    apply (prepare_2d _ H W Hshape2).
    intros Hempty. unfold well_formed in Hwf2.
    rewrite Hempty, Hshape2 in Hwf2. unfold prod in Hwf2. simpl in Hwf2. nia. }
  destruct (Forall_exists_Forall2 _ _ Hprepare) as (prepared & Hall).
  assert (Forall2 (fun image p => prepare "CHW" (item_array image) = Ok p)
            (map Tagged tagged) prepared) as Hall'.
  { eapply Forall2_impl; [exact Hall|]. by intros ?? [? _]. }
  assert (length tagged = length prepared) as Hlen.
  { apply Forall2_length in Hall. by rewrite length_map in Hall. }
  destruct (log_images_run tag (map Tagged tagged) prepared count "CHW" self)
    as (self' & Hrun & Hwrote); [|done|].
  { rewrite !elem_of_cons. by left. }
  exists self'. eexists. split; [|split; [exact Hwrote|]].
  - rewrite (log_object_float_image_batch format tag t N C H W) by done.
    rewrite (log_image_or_volume_batch_run format tag t (map Tagged tagged));
      [|unfold is_image_or_volume_tensor, is_image_tensor, dim, ndim;
        by rewrite Hshape|done].
    fold count.
    replace (if (count =? 0)%Z then count else count) with count
      by (by destruct (count =? 0)%Z).
    exact Hrun.
  - unfold enumerate.
    rewrite written_tags_tagged by (by rewrite length_seq, length_map).
    assert (length (map TaggedImage.tag tagged) = length prepared) as Hlen'
      by (by rewrite length_map).
    split; [|split].
    + rewrite length_zip_with, length_map, <- Hlen, Nat.min_id.
      unfold tagged. by rewrite length_flat_map_map, !List.length_seq.
    + rewrite map_write_tag_zip_with by done.
      unfold tagged.
      assert (map TaggedImage.tag
                (flat_map (fun i =>
                   map (fun c => _tag_image (item (item (numpy t) i) c) tag None
                                   (Some i) (Some c) None) (seq 0 C)) (seq 0 N))
              = flat_map (fun i =>
                  map (fun c => TaggedImage.tag
                                  (_tag_image (item (item (numpy t) i) c) tag
                                     None (Some i) (Some c) None)) (seq 0 C))
                  (seq 0 N)) as ->.
      { apply (map_flat_map_map TaggedImage.tag). }
      apply (NoDup_flat_map_map (fun i c => TaggedImage.tag
               (_tag_image (item (item (numpy t) i) c) tag None
                  (Some i) (Some c) None))); [|apply NoDup_seq|apply NoDup_seq].
      intros i c i' c'. apply tag_image_inj.
    + apply Forall_forall. intros w Hw.
      apply list_elem_of_lookup in Hw as [k Hk].
      apply lookup_zip_with_Some in Hk as (image_tag & p & -> & _ & Hp).
      exists image_tag, p. split; [done|].
      destruct (Forall2_lookup_r _ _ _ _ _ Hall Hp) as (image & _ & _ & ?).
      done.
Qed.

Lemma log_object_image_batch_witness :
  exists (self' : TensorboardLogger) (ws : list write),
    log_object (fun _ => "") "inputs" (PyTensor (zeros [2; 1; 1; 2]%nat))
      true true true (init (mk_Trainer 5 0))
    = (Ok tt, self')
    /\ wrote ws (init (mk_Trainer 5 0)) self'
    /\ length ws = (2 * 1)%nat
    /\ NoDup (map write_tag ws)
    /\ Forall (fun w =>
                 exists image_tag image,
                   w = add_image image_tag image
                         (iteration_count (trainer (init (mk_Trainer 5 0))))
                   /\ shape image = [1; 1; 2]%nat) ws.
Proof.
  apply (log_object_image_batch (fun _ => "") "inputs"
           (zeros [2; 1; 1; 2]%nat) 2 1 1 2 true true (init (mk_Trainer 5 0)));
    try reflexivity; lia.
Defined.

(** X23: an image batch whose images hold no item (H or W is 0) cannot be
    logged: when the batch has at least one instance and one channel,
    [log_object] raises the [ValueError] of the first normalisation and the
    writer receives no call. *)
Theorem log_object_empty_images (format : pyobj -> string) (tag : string)
    (t : Tensor) (N C H W : nat)
    (allow_scalar_logging allow_histogram_logging : bool)
    (self : TensorboardLogger) :
  dtype t = FloatTensor ->
  shape (numpy t) = [N; C; H; W] ->
  (0 < N)%nat -> (0 < C)%nat -> (H * W = 0)%nat ->
  image_batch_indices (_config self) = SelStr "all" ->
  image_channel_indices (_config self) = SelStr "all" ->
  exists self' : TensorboardLogger,
    log_object format tag (PyTensor t) allow_scalar_logging true
      allow_histogram_logging self
    = (Raise ValueError, self')
    /\ wrote [] self self'.
Proof.
  intros Hdtype Hshape HN HC HHW Hbatch Hchannel.
  destruct N as [|N]; [lia|]. destruct C as [|C]; [lia|].
  set (tagged := flat_map (fun i =>
         map (fun c => _tag_image (item (item (numpy t) i) c) tag None
                         (Some i) (Some c) None) (seq 0 (S C))) (seq 0 (S N))).
  assert (extract_images_from_batch format (_config self) (PyTensor t)
            (Some tag) None = Ok (map Tagged tagged)) as Hextract.
  { rewrite (extract_images_image_batch_run format (_config self) t
               (S N) (S C) H W (range (S N)) (range (S C)) (Some tag) None);
      try done.
    - unfold tagged. by rewrite !selected_range, <- flat_map_map_tagged.
    - by rewrite Hbatch.
    - by rewrite Hchannel. }
  rewrite (log_object_float_image_batch format tag t (S N) (S C) H W) by done.
  rewrite (log_image_or_volume_batch_run format tag t (map Tagged tagged));
    [|unfold is_image_or_volume_tensor, is_image_tensor, dim, ndim;
      by rewrite Hshape|done].
  assert (exists rest, map Tagged tagged
            = [] ++ Tagged (_tag_image (item (item (numpy t) 0) 0) tag None
                              (Some 0%nat) (Some 0%nat) None) :: rest)
    as [rest ->].
  { unfold tagged. simpl. eauto. }
  unfold log_images. rewrite bool_decide_true by (rewrite !elem_of_cons; by left).
  unfold assert_.
  destruct (log_images_loop_run [] [] tag
              (if (iteration_count (trainer self) =? 0)%Z
               then iteration_count (trainer self)
               else iteration_count (trainer self)) "CHW" self)
    as [_ Hfail]; [constructor|].
  destruct (Hfail (0%nat, Tagged (_tag_image (item (item (numpy t) 0) 0) tag None
                                    (Some 0%nat) (Some 0%nat) None))
              (zip (seq 1 (length rest)) rest) ValueError)
    as (self' & Hrun & Hwrote).
  { simpl. unfold prepare, _order_image_axes, ndim, item. rewrite Hshape. simpl.
    unfold _normalize_image, amin, expand_front. simpl.
    unfold prod. simpl. rewrite Nat.mul_1_r, HHW. by rewrite take_0. }
  exists self'. split; [|exact Hwrote]. rewrite <- Hrun. reflexivity.
Qed.

Lemma log_object_empty_images_witness :
  exists self' : TensorboardLogger,
    log_object (fun _ => "") "inputs" (PyTensor (zeros [1; 1; 0; 3]%nat))
      true true true (init (mk_Trainer 5 0))
    = (Raise ValueError, self')
    /\ wrote [] (init (mk_Trainer 5 0)) self'.
Proof.
  apply (log_object_empty_images (fun _ => "") "inputs"
           (zeros [1; 1; 0; 3]%nat) 1 1 0 3 true true (init (mk_Trainer 5 0)));
    try reflexivity; lia.
Defined.

(** ** Callbacks *)

Section CallbackProperties.

Variable format : pyobj -> string.
Variable get_state : string -> pyobj.

(** The loop over the observed states when every state is absent or a
    number within the range of the floats. *)
Lemma log_states_numbers (state_keys : list string)
    (allow_scalar_logging allow_image_logging : bool)
    (self : TensorboardLogger) :
  Forall (fun k => absent_or_number (get_state k)) state_keys ->
  exists self' : TensorboardLogger,
    log_states format get_state state_keys
      allow_scalar_logging allow_image_logging self
    = (Ok tt, self')
    /\ wrote (if allow_scalar_logging
              then omap (number_write get_state (iteration_count (trainer self)))
                     state_keys
              else []) self self'.
Proof.
  intros Hall. revert self.
  induction Hall as [|k state_keys Hk _ IH]; intros self.
  - exists self. split; [done|]. destruct allow_scalar_logging; apply wrote_nil.
  - assert (exists self1,
              match get_state k with
              | PyNone => mret tt
              | state => log_object format k state allow_scalar_logging
                           allow_image_logging true
              end self = (Ok tt, self1)
              /\ wrote (if allow_scalar_logging
                        then from_option (fun w => [w]) []
                               (number_write get_state
                                  (iteration_count (trainer self)) k)
                        else []) self self1) as (self1 & Hone & Hwrote1).
    { unfold number_write.
      destruct (get_state k) as [| z | x | | | |]; try done.
      - exists self. split; [done|].
        destruct allow_scalar_logging; apply wrote_nil.
      - destruct allow_scalar_logging.
        + pose proof (float_of_int_in_range z Hk) as Hfloat.
          rewrite Hfloat, (log_object_int format k z _ _ _ _ Hfloat).
          apply log_scalar_wrote.
        + exists self. split; [done|apply wrote_nil].
      - destruct allow_scalar_logging.
        + apply log_scalar_wrote.
        + exists self. split; [done|apply wrote_nil]. }
    destruct (IH self1) as (self2 & Hrun & Hwrote2).
    exists self2. split.
    + simpl. erewrite bind_ok; [exact Hrun|exact Hone].
    + assert (trainer self1 = trainer self) as Htr by apply Hwrote1.
      rewrite Htr in Hwrote2.
      pose proof (wrote_app _ _ _ _ _ Hwrote1 Hwrote2) as Hwrote.
      destruct allow_scalar_logging; [|exact Hwrote].
      simpl. destruct (number_write get_state _ k); exact Hwrote.
Qed.

End CallbackProperties.

(** X24: [end_of_validation_run] when every observed validation state is
    absent from the trainer, a float, or an int within the range of the
    floats (of magnitude below 2^1024 - 2^970): the call returns, the states
    the trainer lacks are skipped, and every other state is written once as
    a scalar under its key (an int as the float nearest to it) with the
    iteration count as step, in the order the registry is visited. *)
Theorem end_of_validation_run_numbers (format : pyobj -> string)
    (get_state : string -> pyobj)
    (iteration_order : gset string -> list string) (self : TensorboardLogger) :
  Forall (fun k => absent_or_number (get_state k))
    (iteration_order (_trainer_states_being_observed_while_validating self)) ->
  exists self' : TensorboardLogger,
    end_of_validation_run format get_state iteration_order self = (Ok tt, self')
    /\ wrote (omap (number_write get_state (iteration_count (trainer self)))
                (iteration_order
                   (_trainer_states_being_observed_while_validating self)))
         self self'.
Proof.
  intros Hall. unfold end_of_validation_run.
  erewrite bind_ok; [|apply read_run]. cbv beta.
  apply (log_states_numbers format get_state _ true true self Hall).
Qed.

Lemma end_of_validation_run_numbers_witness :
  exists self' : TensorboardLogger,
    end_of_validation_run (fun _ => "")
      (fun k => if String.eqb k "validation_loss_averaged"
                then PyFloat (Q2Qc (1 # 4))
                else if String.eqb k "validation_error_averaged"
                then PyInt 3
                else PyNone)
      elements (init (mk_Trainer 7 1))
    = (Ok tt, self')
    /\ wrote (omap (number_write
                      (fun k => if String.eqb k "validation_loss_averaged"
                                then PyFloat (Q2Qc (1 # 4))
                                else if String.eqb k "validation_error_averaged"
                                then PyInt 3
                                else PyNone)
                      (iteration_count (trainer (init (mk_Trainer 7 1)))))
                (elements (_trainer_states_being_observed_while_validating
                             (init (mk_Trainer 7 1)))))
         (init (mk_Trainer 7 1)) self'.
Proof.
  apply (end_of_validation_run_numbers (fun _ => "")
           (fun k => if String.eqb k "validation_loss_averaged"
                     then PyFloat (Q2Qc (1 # 4))
                     else if String.eqb k "validation_error_averaged"
                     then PyInt 3
                     else PyNone)
           elements (init (mk_Trainer 7 1))).
  apply Forall_forall. intros k _. simpl.
  destruct (String.eqb k "validation_loss_averaged"); [exact I|].
  destruct (String.eqb k "validation_error_averaged"); [reflexivity|exact I].
Defined.

Lemma end_of_training_iteration_numbers_run (format : pyobj -> string)
    (get_state : string -> pyobj)
    (iteration_order : gset string -> list string)
    (log_scalars_now log_images_now : bool) (self : TensorboardLogger) :
  Forall (fun k => absent_or_number (get_state k))
    (iteration_order (_trainer_states_being_observed_while_training self)) ->
  exists self' : TensorboardLogger,
    end_of_training_iteration format get_state iteration_order
      log_scalars_now log_images_now self
    = (Ok tt, self')
    /\ wrote (if log_scalars_now
              then omap (number_write get_state (iteration_count (trainer self)))
                     (iteration_order
                        (_trainer_states_being_observed_while_training self))
              else []) self self'.
Proof.
  intros Hall. unfold end_of_training_iteration.
  destruct (negb log_scalars_now && negb log_images_now) eqn:Hdue.
  - exists self. split; [done|].
    destruct log_scalars_now; [done|apply wrote_nil].
  - erewrite bind_ok; [|apply read_run]. cbv beta.
    apply (log_states_numbers format get_state _ log_scalars_now
             log_images_now self Hall).
Qed.

(** X25: [end_of_training_iteration] when every observed training state is
    absent, a float, or an int within the range of the floats (of magnitude
    below 2^1024 - 2^970): the call returns; the numbers are written as in
    [end_of_validation_run] when scalars are due, and nothing is written
    when they are not, whether images are due or not. *)
Theorem end_of_training_iteration_numbers (format : pyobj -> string)
    (get_state : string -> pyobj)
    (iteration_order : gset string -> list string)
    (log_scalars_now log_images_now : bool) (self : TensorboardLogger) :
  Forall (fun k => absent_or_number (get_state k))
    (iteration_order (_trainer_states_being_observed_while_training self)) ->
  exists self' : TensorboardLogger,
    end_of_training_iteration format get_state iteration_order
      log_scalars_now log_images_now self
    = (Ok tt, self')
    /\ wrote (if log_scalars_now
              then omap (number_write get_state (iteration_count (trainer self)))
                     (iteration_order
                        (_trainer_states_being_observed_while_training self))
              else []) self self'.
Proof.
  intros Hall. unfold end_of_training_iteration.
  destruct (negb log_scalars_now && negb log_images_now) eqn:Hdue.
  - exists self. split; [done|].
    destruct log_scalars_now; [done|apply wrote_nil].
  - erewrite bind_ok; [|apply read_run]. cbv beta.
    apply (log_states_numbers format get_state _ log_scalars_now
             log_images_now self Hall).
Qed.

Lemma end_of_training_iteration_numbers_witness :
  exists self' : TensorboardLogger,
    end_of_training_iteration (fun _ => "")
      (fun k => if String.eqb k "training_loss"
                then PyFloat (Q2Qc (42 # 100))
                else if String.eqb k "learning_rate"
                then PyInt 1
                else PyNone)
      elements true false (init (mk_Trainer 5 0))
    = (Ok tt, self')
    /\ wrote (if true
              then omap (number_write
                           (fun k => if String.eqb k "training_loss"
                                     then PyFloat (Q2Qc (42 # 100))
                                     else if String.eqb k "learning_rate"
                                     then PyInt 1
                                     else PyNone)
                           (iteration_count (trainer (init (mk_Trainer 5 0)))))
                     (elements (_trainer_states_being_observed_while_training
                                  (init (mk_Trainer 5 0))))
              else []) (init (mk_Trainer 5 0)) self'.
Proof.
  apply (end_of_training_iteration_numbers (fun _ => "")
           (fun k => if String.eqb k "training_loss"
                     then PyFloat (Q2Qc (42 # 100))
                     else if String.eqb k "learning_rate"
                     then PyInt 1
                     else PyNone)
           elements true false (init (mk_Trainer 5 0))).
  apply Forall_forall. intros k _. simpl.
  destruct (String.eqb k "training_loss"); [exact I|].
  destruct (String.eqb k "learning_rate"); [reflexivity|exact I].
Defined.

Lemma omap_single {A B : Type} (f : A -> option B) (l : list A) (k : A) (b : B) :
  NoDup l -> k ∈ l -> f k = Some b -> (forall x, x ∈ l -> x <> k -> f x = None) ->
  omap f l = [b].
Proof.
  intros Hnodup Hk Hfk Hother.
  induction Hnodup as [|x l Hx Hnodup IH]; [by apply elem_of_nil in Hk|].
  simpl. apply elem_of_cons in Hk as [<- | Hk].
  - rewrite Hfk. f_equal.
    assert (forall l', (forall y, y ∈ l' -> f y = None) -> omap f l' = []) as Hnone.
    { induction l' as [|y l' IHl']; intros Hl'; simpl; [done|].
      rewrite (Hl' y) by (by left). apply IHl'. intros z Hz. apply Hl'. by right. }
    apply Hnone. intros y Hy. apply Hother; [by right|]. by intros ->.
  - rewrite (Hother x) by ((by left) || (by intros ->)).
    apply IH; [done|]. intros y Hy. apply Hother. by right.
Qed.

(** X26: one observed state, one write: when scalars are due, the training
    registry holds a key whose state is a float, and the trainer has no
    other observed state, [end_of_training_iteration] performs exactly the
    call [add_scalar(key, value, iteration_count)], in whatever order the
    registry is visited. *)
Theorem end_of_training_iteration_one_scalar (format : pyobj -> string)
    (get_state : string -> pyobj)
    (iteration_order : gset string -> list string)
    (log_images_now : bool) (state_key : string) (value : Qc)
    (self : TensorboardLogger) :
  visits_each_item_once iteration_order ->
  state_key ∈ _trainer_states_being_observed_while_training self ->
  get_state state_key = PyFloat value ->
  (forall k, k ∈ _trainer_states_being_observed_while_training self ->
             k <> state_key -> get_state k = PyNone) ->
  exists self' : TensorboardLogger,
    end_of_training_iteration format get_state iteration_order
      true log_images_now self
    = (Ok tt, self')
    /\ wrote [add_scalar state_key value (iteration_count (trainer self))]
         self self'.
Proof.
  intros Horder Hkey Hstate Hothers.
  destruct (Horder (_trainer_states_being_observed_while_training self))
    as [Hnodup Hmem].
  destruct (end_of_training_iteration_numbers_run format get_state
              iteration_order true log_images_now self)
    as (self' & Hrun & Hwrote).
  { apply Forall_forall. intros k Hk%Hmem.
    destruct (decide (k = state_key)) as [->|Hne].
    - by rewrite Hstate.
    - by rewrite (Hothers k Hk Hne). }
  exists self'. split; [done|].
  rewrite (omap_single _ _ state_key
             (add_scalar state_key value (iteration_count (trainer self))))
    in Hwrote; try done.
  - by apply Hmem.
  - unfold number_write. by rewrite Hstate.
  - intros k Hk%Hmem Hne. unfold number_write. by rewrite (Hothers k Hk Hne).
Qed.

Lemma end_of_training_iteration_one_scalar_witness :
  exists self' : TensorboardLogger,
    end_of_training_iteration (fun _ => "")
      (fun k => if String.eqb k "training_loss"
                then PyFloat (Q2Qc (42 # 100)) else PyNone)
      elements true false (init (mk_Trainer 5 0))
    = (Ok tt, self')
    /\ wrote [add_scalar "training_loss" (Q2Qc (42 # 100))
                (iteration_count (trainer (init (mk_Trainer 5 0))))]
         (init (mk_Trainer 5 0)) self'.
Proof.
  apply (end_of_training_iteration_one_scalar (fun _ => "")
           (fun k => if String.eqb k "training_loss"
                     then PyFloat (Q2Qc (42 # 100)) else PyNone)
           elements false "training_loss" (Q2Qc (42 # 100))
           (init (mk_Trainer 5 0))).
  - intros s. split; [apply NoDup_elements|]. intros k. apply elem_of_elements.
  - vm_compute. reflexivity.
  - reflexivity.
  - intros k _ Hne. destruct (String.eqb_spec k "training_loss"); [done|].
    reflexivity.
Defined.
